(** * Zabbix weekly problem report: the cleaning pipeline of [prob_report.py]

    A shallow embedding of [clean_data] (src/prob_report.py, lines 38-130)
    and of the pandas / Python operations it calls, and of the data that
    the chart functions (lines 133-219) compute from its result, followed
    by the properties of the pipeline and of the charts.

    Modelling conventions.
    - A pandas column holds Python objects; a cell is a [pyval]: a missing
      value ([None] / [NaN]), a Python [int] or a Python [str].  Floats,
      booleans and pandas' dtype inference are outside the model.
    - Text is ASCII: [str.upper] and [repr] are modelled on bytes.
    - [astype(int)] produces numpy [int64]; arithmetic on such a column wraps
      around, and a value that does not fit is refused by the conversion.
    - [pd.to_datetime(..., unit="s")] produces nanosecond timestamps and
      refuses a value outside their 64-bit range.
    - A fallible stage returns a [result]; an exception aborts the run.

    Where the model stops.  pandas decides some behaviour from the whole
    column or by its version, which the cell-wise model does not follow;
    the properties that would depend on it carry a hypothesis that keeps
    the batch away from it, or do not speak of it.
    - The rows of a merge are modelled in the order of the left frame.
      pandas orders them otherwise when a key repeats (and differently from
      one version to the next), so the properties below speak of the
      records of the output, whatever their order; where a lemma gives the
      output as a list, the order of the list is the model's.
    - A merge of a column of integers with a column of texts is refused by
      pandas; the model compares cell by cell.  See [uniform_keys].
    - A Python [int] outside 64 bits is refused by the model; pandas reads a
      column of integers that holds one as [uint64] and converts it
      silently.  See [clock_cell].
    - The least 64-bit integer is accepted by [to_datetime] as a missing
      time; the model refuses it like any value out of range.  The range
      itself is that of nanosecond timestamps.
    - [dt.normalize] is modelled on whole seconds without bound; on the
      first, partial day of the nanosecond range pandas has no midnight to
      give.  See [first_midnight]. *)

From Stdlib Require Import ZArith List String Ascii Bool Lia Arith.
From Stdlib Require Import DecimalString Sorted.
From Stdlib Require OrderedTypeEx.
Import ListNotations.

Local Open Scope string_scope.
Local Open Scope Z_scope.

(** ** Exceptions and the error monad *)

Inductive error : Type :=
| KeyError             (* a column label that the frame does not have *)
| ValueError           (* [astype(int)] refuses the cell: no integer *)
| OverflowError        (* [astype(int)] refuses the cell: an integer of more than 64 bits *)
| OutOfBoundsDatetime. (* [to_datetime] outside the nanosecond range *)

Inductive result (A : Type) : Type :=
| Ok (a : A)
| Err (e : error).
Arguments Ok {A} a.
Arguments Err {A} e.

Definition bind {A B : Type} (r : result A) (k : A -> result B) : result B :=
  match r with
  | Ok a => k a
  | Err e => Err e
  end.

Notation "x <- r ;; k" := (bind r (fun x => k))
  (at level 61, r at next level, right associativity).

(** A column operation applies to every cell and fails as soon as one cell
    fails. *)
Fixpoint mapM {A B : Type} (f : A -> result B) (l : list A) : result (list B) :=
  match l with
  | [] => Ok []
  | a :: l' => b <- f a ;; bs <- mapM f l' ;; Ok (b :: bs)
  end.

(** ** Python text operations *)

Module PyStr.

Definition squote : ascii := "'"%char.
Definition dquote : ascii := "034"%char.
Definition backslash : ascii := "\"%char.
Definition space : ascii := " "%char.

Fixpoint mem (c : ascii) (cs : string) : bool :=
  match cs with
  | EmptyString => false
  | String d cs' => Ascii.eqb c d || mem c cs'
  end.

(** [s.lstrip(cs)], [s.rstrip(cs)], [s.strip(cs)]. *)
Fixpoint lstrip (cs s : string) : string :=
  match s with
  | EmptyString => EmptyString
  | String c s' => if mem c cs then lstrip cs s' else s
  end.

Fixpoint rstrip (cs s : string) : string :=
  match s with
  | EmptyString => EmptyString
  | String c s' =>
      match rstrip cs s' with
      | EmptyString => if mem c cs then EmptyString else String c EmptyString
      | r => String c r
      end
  end.

Definition strip (cs s : string) : string := rstrip cs (lstrip cs s).

(** [s.upper()] on ASCII. *)
Definition upper_char (c : ascii) : ascii :=
  let n := nat_of_ascii c in
  if ((97 <=? n) && (n <=? 122))%nat then ascii_of_nat (n - 32) else c.

Fixpoint upper (s : string) : string :=
  match s with
  | EmptyString => EmptyString
  | String c s' => String (upper_char c) (upper s')
  end.

(** [cut s] splits [s] at its first space. *)
Fixpoint cut (s : string) : option (string * string) :=
  match s with
  | EmptyString => None
  | String c s' =>
      if Ascii.eqb c space then Some (EmptyString, s')
      else match cut s' with
           | Some (pre, post) => Some (String c pre, post)
           | None => None
           end
  end.

(** [s.split(" ", n)]: at most [n] splits, so at most [n + 1] pieces; the
    last piece is the unsplit remainder. *)
Fixpoint split (n : nat) (s : string) : list string :=
  match n with
  | O => [s]
  | S n' =>
      match cut s with
      | Some (pre, post) => pre :: split n' post
      | None => [s]
      end
  end.

(** [repr] of a [str]. *)
Definition hex_digit (n : nat) : ascii :=
  if (n <? 10)%nat then ascii_of_nat (48 + n) else ascii_of_nat (87 + n).

Definition repr_char (q c : ascii) : string :=
  let n := nat_of_ascii c in
  if Ascii.eqb c q || Ascii.eqb c backslash then String backslash (String c EmptyString)
  else if (n =? 9)%nat then "\t"
  else if (n =? 10)%nat then "\n"
  else if (n =? 13)%nat then "\r"
  else if ((n <? 32) || (n =? 127))%nat then
    String backslash (String "x" (String (hex_digit (n / 16)) (String (hex_digit (n mod 16)) EmptyString)))
  else String c EmptyString.

Fixpoint repr_body (q : ascii) (s : string) : string :=
  match s with
  | EmptyString => EmptyString
  | String c s' => repr_char q c ++ repr_body q s'
  end.

Definition repr (s : string) : string :=
  let q := if mem squote s && negb (mem dquote s) then dquote else squote in
  String q (repr_body q s ++ String q EmptyString).

(** [", ".join(l)]. *)
Fixpoint join (sep : string) (l : list string) : string :=
  match l with
  | [] => EmptyString
  | [s] => s
  | s :: l' => s ++ sep ++ join sep l'
  end.

(** [int(s)] for a [str]: surrounding whitespace, an optional sign, then
    decimal digits, where single underscores may separate digits. *)
Definition is_space (c : ascii) : bool :=
  let n := nat_of_ascii c in
  (((9 <=? n) && (n <=? 13)) || ((28 <=? n) && (n <=? 32)))%nat.

Fixpoint lstrip_ws (s : string) : string :=
  match s with
  | EmptyString => EmptyString
  | String c s' => if is_space c then lstrip_ws s' else s
  end.

Fixpoint rstrip_ws (s : string) : string :=
  match s with
  | EmptyString => EmptyString
  | String c s' =>
      match rstrip_ws s' with
      | EmptyString => if is_space c then EmptyString else String c EmptyString
      | r => String c r
      end
  end.

Definition is_digit (c : ascii) : bool :=
  let n := nat_of_ascii c in ((48 <=? n) && (n <=? 57))%nat.

Definition digit_val (c : ascii) : Z := Z.of_nat (nat_of_ascii c) - 48.

Fixpoint digits (s : string) (after_digit : bool) (acc : Z) : option Z :=
  match s with
  | EmptyString => if after_digit then Some acc else None
  | String c s' =>
      if is_digit c then digits s' true (10 * acc + digit_val c)
      else if Ascii.eqb c "_" && after_digit then digits s' false acc
      else None
  end.

Definition int_of_str (s : string) : option Z :=
  match rstrip_ws (lstrip_ws s) with
  | String "-" s' => option_map Z.opp (digits s' false 0)
  | String "+" s' => digits s' false 0
  | s' => digits s' false 0
  end.

(** [str(n)] for an [int]. *)
Definition str_of_int (n : Z) : string := NilZero.string_of_int (Z.to_int n).

End PyStr.

(** ** Cells *)

(** A cell of an object column: missing ([None] / [NaN]), an [int], a [str]. *)
Inductive pyval : Type :=
| PNone
| PInt (z : Z)
| PStr (s : string).

(** The [hosts] cell: the list of host descriptors that the API returns for
    [selectHosts], each an insertion-ordered dict, or missing. *)
Inductive hosts_cell : Type :=
| HMissing
| HList (l : list (list (string * pyval))).

(** Equality of two merge keys.  pandas matches missing keys with each
    other. *)
Definition pyval_eqb (a b : pyval) : bool :=
  match a, b with
  | PNone, PNone => true
  | PInt x, PInt y => Z.eqb x y
  | PStr s, PStr t => String.eqb s t
  | _, _ => false
  end.

(** [pd.isna] and its negation. *)
Definition notna (v : pyval) : bool :=
  match v with
  | PNone => false
  | _ => true
  end.

(** [repr] of a cell inside a container, and [str] of the [hosts] cell. *)
Definition repr_val (v : pyval) : string :=
  match v with
  | PNone => "None"
  | PInt z => PyStr.str_of_int z
  | PStr s => PyStr.repr s
  end.

Definition repr_item (kv : string * pyval) : string :=
  PyStr.repr (fst kv) ++ ": " ++ repr_val (snd kv).

Definition repr_dict (d : list (string * pyval)) : string :=
  "{" ++ PyStr.join ", " (map repr_item d) ++ "}".

Definition str_hosts (h : hosts_cell) : string :=
  match h with
  | HMissing => "nan"
  | HList l => "[" ++ PyStr.join ", " (map repr_dict l) ++ "]"
  end.

(** ** 64-bit integers: [astype(int)] and column arithmetic *)

Definition int64_min : Z := -9223372036854775808.
Definition int64_max : Z := 9223372036854775807.

Definition fits_int64 (z : Z) : bool := (int64_min <=? z) && (z <=? int64_max).

Definition wrap64 (z : Z) : Z := (z + 9223372036854775808) mod 18446744073709551616 - 9223372036854775808.

(** [int(v)] when it exists and fits the column's element type. *)
Definition py_int (v : pyval) : option Z :=
  match v with
  | PNone => None
  | PInt z => if fits_int64 z then Some z else None
  | PStr s =>
      match PyStr.int_of_str s with
      | Some z => if fits_int64 z then Some z else None
      | None => None
      end
  end.

(** The exception of a cell that has no 64-bit integer: [ValueError] for a
    text that is no integer literal and for a missing value, [OverflowError]
    for an integer that does not fit. *)
Definition refusal (v : pyval) : error :=
  match v with
  | PNone => ValueError
  | PInt _ => OverflowError
  | PStr s =>
      match PyStr.int_of_str s with
      | Some _ => OverflowError
      | None => ValueError
      end
  end.

Definition astype_int (v : pyval) : result Z :=
  match py_int v with
  | Some z => Ok z
  | None => Err (refusal v)
  end.

(** ** Timestamps: [pd.to_datetime(..., unit="s")] and [strftime] *)

(** The seconds that a nanosecond timestamp can hold. *)
Definition timestamp_min : Z := -9223372036.
Definition timestamp_max : Z := 9223372036.

Definition in_timestamp_range (t : Z) : bool := (timestamp_min <=? t) && (t <=? timestamp_max).

Definition to_datetime (t : Z) : result Z :=
  if in_timestamp_range t then Ok t else Err OutOfBoundsDatetime.

(** Calendar fields of a timestamp, in UTC: the day number since the epoch
    and the second of that day, then year, month and day of the proleptic
    Gregorian calendar. *)
Definition day_number (t : Z) : Z := t / 86400.
Definition second_of_day (t : Z) : Z := t mod 86400.

Definition civil_from_days (days : Z) : Z * Z * Z :=
  let z := days + 719468 in
  let era := z / 146097 in
  let doe := z - era * 146097 in
  let yoe := (doe - doe / 1460 + doe / 36524 - doe / 146096) / 365 in
  let doy := doe - (365 * yoe + yoe / 4 - yoe / 100) in
  let mp := (5 * doy + 2) / 153 in
  let d := doy - (153 * mp + 2) / 5 + 1 in
  let m := if mp <? 10 then mp + 3 else mp - 9 in
  let y := yoe + era * 400 + (if m <=? 2 then 1 else 0) in
  (y, m, d).

Definition digit (n : Z) : ascii := ascii_of_nat (48 + Z.to_nat n).

Definition pad2 (n : Z) : string :=
  String (digit (n / 10)) (String (digit (n mod 10)) EmptyString).

Definition pad4 (n : Z) : string := pad2 (n / 100) ++ pad2 (n mod 100).

(** [strftime("%H:%M:%S")]. *)
Definition strftime_HMS (t : Z) : string :=
  let sod := second_of_day t in
  pad2 (sod / 3600) ++ ":" ++ pad2 (sod mod 3600 / 60) ++ ":" ++ pad2 (sod mod 60).

(** [strftime("%m/%d/%Y %H:%M:%S")]. *)
Definition strftime_mdY_HMS (t : Z) : string :=
  let '(y, m, d) := civil_from_days (day_number t) in
  pad2 m ++ "/" ++ pad2 d ++ "/" ++ pad4 y ++ " " ++ strftime_HMS t.

(** ** Frames *)

(** A raw event as the API returns it with [output="extend"]. *)
Record raw_event : Type := {
  raw_eventid : pyval;
  raw_clock : pyval;
  raw_r_eventid : pyval;
  raw_severity : pyval;
  raw_hosts : hosts_cell;
  raw_name : pyval;
  raw_acknowledged : pyval;
  raw_c_eventid : pyval;
  raw_correlationid : pyval;
  raw_ns : pyval;
  raw_object : pyval;
  raw_objectid : pyval;
  raw_source : pyval;
  raw_suppressed : pyval;
  raw_userid : pyval;
  raw_value : pyval
}.

(** A row of the frames inside [clean_data].  The columns keep their names
    through the pipeline while the type of their cells changes; a column
    that a frame does not have holds [unit]. *)
Record row (E C RE H RC RT : Type) : Type := {
  eventid : E;
  clock : C;
  r_eventid : RE;
  severity : pyval;
  hosts : H;
  name : pyval;
  r_clock : RC;
  rts_clock : RT
}.
Arguments eventid {E C RE H RC RT} r.
Arguments clock {E C RE H RC RT} r.
Arguments r_eventid {E C RE H RC RT} r.
Arguments severity {E C RE H RC RT} r.
Arguments hosts {E C RE H RC RT} r.
Arguments name {E C RE H RC RT} r.
Arguments r_clock {E C RE H RC RT} r.
Arguments rts_clock {E C RE H RC RT} r.
Arguments Build_row {E C RE H RC RT}.

(** The frames of the pipeline, by the name the source gives them. *)
Definition dropped_row := row pyval pyval pyval hosts_cell unit unit.
Definition adjusted_row := row pyval pyval pyval hosts_cell pyval unit.
Definition resolved_row := row pyval Z pyval hosts_cell Z Z.
Definition host_row := row pyval Z pyval pyval Z Z.
Definition adjusted_dataframe_row := row pyval Z unit pyval unit Z.
Definition cleaned_row := row Z string unit pyval unit string.

Section Columns.
Context {E C RE H RC RT : Type}.
Implicit Type r : row E C RE H RC RT.

Definition set_eventid {E'} r (v : E') : row E' C RE H RC RT :=
  Build_row v (clock r) (r_eventid r) (severity r) (hosts r) (name r) (r_clock r) (rts_clock r).
Definition set_clock {C'} r (v : C') : row E C' RE H RC RT :=
  Build_row (eventid r) v (r_eventid r) (severity r) (hosts r) (name r) (r_clock r) (rts_clock r).
Definition set_r_eventid {RE'} r (v : RE') : row E C RE' H RC RT :=
  Build_row (eventid r) (clock r) v (severity r) (hosts r) (name r) (r_clock r) (rts_clock r).
Definition set_severity r (v : pyval) : row E C RE H RC RT :=
  Build_row (eventid r) (clock r) (r_eventid r) v (hosts r) (name r) (r_clock r) (rts_clock r).
Definition set_hosts {H'} r (v : H') : row E C RE H' RC RT :=
  Build_row (eventid r) (clock r) (r_eventid r) (severity r) v (name r) (r_clock r) (rts_clock r).
Definition set_r_clock {RC'} r (v : RC') : row E C RE H RC' RT :=
  Build_row (eventid r) (clock r) (r_eventid r) (severity r) (hosts r) (name r) v (rts_clock r).
Definition set_rts_clock {RT'} r (v : RT') : row E C RE H RC RT' :=
  Build_row (eventid r) (clock r) (r_eventid r) (severity r) (hosts r) (name r) (r_clock r) v.
End Columns.

(** [frame[col] = f(frame)]: the new column is computed for every row, and
    the assignment fails when one cell fails. *)
Definition assign {A B R : Type} (f : A -> result B) (set : A -> B -> R) (frame : list A) : result (list R) :=
  mapM (fun r => v <- f r ;; Ok (set r v)) frame.

(** [left.merge(right, on=key)]: the rows of the inner join, here in the
    order of the left frame. *)
Definition merge {A B R : Type} (key_left : A -> pyval) (key_right : B -> pyval)
    (join : A -> B -> R) (left : list A) (right : list B) : list R :=
  flat_map (fun a => map (join a) (filter (fun b => pyval_eqb (key_left a) (key_right b)) right)) left.

(** ** The pipeline: [clean_data] *)

(** [dataframe.drop([...], axis=1)]: the ten columns that the report does
    not use are dropped. *)
Definition drop_columns (e : raw_event) : dropped_row :=
  Build_row (raw_eventid e) (raw_clock e) (raw_r_eventid e) (raw_severity e)
            (raw_hosts e) (raw_name e) tt tt.

(** Lines 60-66.  The frame with the columns [eventid] (the [r_eventid] of
    a row of [args]) and [clock] (of the row of [args] with that
    [eventid]). *)
Definition create_resolution_time_dataframe (args : list dropped_row) : list (pyval * pyval) :=
  let resolution_time := map (fun r => r_eventid r) args in
  let event_time := map (fun r => (eventid r, clock r)) args in
  merge (fun k => k) fst (fun k et => (k, snd et)) resolution_time event_time.

(** Lines 68-73.  The same frame with its columns renamed to [r_eventid]
    and [r_clock]. *)
Definition restructure_dataframe (dropped_frame : list dropped_row) : list (pyval * pyval) :=
  map (fun ec => (fst ec, snd ec)) (create_resolution_time_dataframe dropped_frame).

(** Line 75: [dropped_frame.merge(restructure_dataframe(), on="r_eventid")]. *)
Definition adjusted_frame (dropped_frame : list dropped_row) : list adjusted_row :=
  merge (fun r => r_eventid r) fst (fun r l => set_r_clock r (snd l))
        dropped_frame (restructure_dataframe dropped_frame).

(** Lines 78-83.  The new column [rts_clock], the time to resolution in
    seconds. *)
Definition create_resolved_time (args : list adjusted_row) : result (list resolved_row) :=
  dataframe <- assign (fun r => astype_int (clock r)) set_clock args ;;
  dataframe <- assign (fun r => astype_int (r_clock r)) set_r_clock dataframe ;;
  Ok (map (fun x => set_rts_clock x (wrap64 (r_clock x - clock x))) dataframe).

(** The pieces of the [hosts] text: upper-cased, outer brackets and braces
    stripped, split at its first three spaces. *)
Definition host_pieces (h : hosts_cell) : list string :=
  PyStr.split 3 (PyStr.strip "{}" (PyStr.strip "[]" (PyStr.upper (str_hosts h)))).

(** Column 3 of the expanded split, its quotes stripped; a row with fewer
    pieces has a missing value there. *)
Definition host_column_3 (pieces : list string) : pyval :=
  match nth_error pieces 3 with
  | Some s => PStr (PyStr.strip "''" s)
  | None => PNone
  end.

(** [dataframe.dropna()]: a row with a missing value in any column is
    dropped.  The integer columns have none. *)
Definition notna_row (r : host_row) : bool :=
  notna (eventid r) && notna (r_eventid r) && notna (severity r)
  && notna (hosts r) && notna (name r).

Definition dropna (frame : list host_row) : list host_row := filter notna_row frame.

(** Lines 88-101.  The [hosts] column becomes column 3 of the split; the
    rows with a missing value are dropped, then the columns [r_eventid] and
    [r_clock]. *)
Definition host_series_adjustment (args : list resolved_row) : result (list adjusted_dataframe_row) :=
  let host_frame := map (fun r => host_pieces (hosts r)) args in
  (* [expand=True]: as many columns as the longest row has pieces *)
  let columns := list_max (map (@List.length string) host_frame) in
  if (3 <? columns)%nat then
    let dataframe := map (fun r => set_hosts r (host_column_3 (host_pieces (hosts r)))) args in
    Ok (map (fun r => set_r_clock (set_r_eventid r tt) tt) (dropna dataframe))
  else Err KeyError.

(** The severity labels. *)
Definition severity_labels : list (string * string) :=
  [ ("0", "Not Classified");
    ("1", "Information");
    ("2", "Warning");
    ("3", "Average");
    ("4", "High");
    ("5", "Disaster") ].

Fixpoint dict_get (d : list (string * string)) (k : string) : option string :=
  match d with
  | [] => None
  | (k', v) :: d' => if String.eqb k k' then Some v else dict_get d' k
  end.

(** [Series.map(d)]: a value that is not a key of [d] maps to a missing
    value. *)
Definition series_map (d : list (string * string)) (v : pyval) : pyval :=
  match v with
  | PStr s =>
      match dict_get d s with
      | Some l => PStr l
      | None => PNone
      end
  | _ => PNone
  end.

(** Lines 106-126. *)
Definition correct_datatypes (args : list adjusted_dataframe_row) : result (list cleaned_row) :=
  dataframe <- assign (fun r => t <- to_datetime (clock r) ;; Ok (strftime_mdY_HMS t)) set_clock args ;;
  dataframe <- assign (fun r => astype_int (eventid r)) set_eventid dataframe ;;
  let dataframe := map (fun r => set_severity r (series_map severity_labels (severity r))) dataframe in
  assign (fun r => t <- to_datetime (rts_clock r) ;; Ok (strftime_HMS t)) set_rts_clock dataframe.

(** Lines 38-130. *)
Definition clean_data (args : list raw_event) : result (list cleaned_row) :=
  let dropped_frame := map drop_columns args in
  let adjusted_frame := adjusted_frame dropped_frame in
  resolved_frame <- create_resolved_time adjusted_frame ;;
  adjusted_dataframe <- host_series_adjustment resolved_frame ;;
  correct_datatypes adjusted_dataframe.

(** ** Building events *)

(** A raw event; the dropped columns hold the values the API gives a
    trigger event. *)
Definition mk_event (id clk r_id sev : pyval) (h : hosts_cell) (nm : pyval) : raw_event :=
  {| raw_eventid := id; raw_clock := clk; raw_r_eventid := r_id; raw_severity := sev;
     raw_hosts := h; raw_name := nm;
     raw_acknowledged := PStr "0"; raw_c_eventid := PStr "0"; raw_correlationid := PStr "0";
     raw_ns := PStr "0"; raw_object := PStr "0"; raw_objectid := PStr "0";
     raw_source := PStr "0"; raw_suppressed := PStr "0"; raw_userid := PStr "0";
     raw_value := PStr "1" |}.

(** One host descriptor, as [selectHosts=["host"]] returns it. *)
Definition one_host (hostid host : string) : hosts_cell :=
  HList [[("hostid", PStr hostid); ("host", PStr host)]].

(** * Definitions for the properties *)

(** ** The row that a correlated row becomes *)

(** The stages act row by row; these functions give, for one row of the
    adjusted frame, the row of each later frame. *)
Definition resolve_row (a : adjusted_row) : option resolved_row :=
  match py_int (clock a), py_int (r_clock a) with
  | Some c, Some rc =>
      Some (set_rts_clock (set_r_clock (set_clock a c) rc) (wrap64 (rc - c)))
  | _, _ => None
  end.

Definition host_row_of (r : resolved_row) : host_row :=
  set_hosts r (host_column_3 (host_pieces (hosts r))).

Definition drop_resolution (r : host_row) : adjusted_dataframe_row :=
  set_r_clock (set_r_eventid r tt) tt.

Definition finish_row (h : adjusted_dataframe_row) : option cleaned_row :=
  if in_timestamp_range (clock h) && in_timestamp_range (rts_clock h) then
    match py_int (eventid h) with
    | Some n =>
        Some (Build_row n (strftime_mdY_HMS (clock h)) tt
                (series_map severity_labels (severity h)) (hosts h) (name h) tt
                (strftime_HMS (rts_clock h)))
    | None => None
    end
  else None.

(** The frame after the split has a column 3 when some row has four
    pieces. *)
Definition has_host_column (h : hosts_cell) : Prop :=
  (3 < List.length (host_pieces h))%nat.

(** ** The pipeline, row by row *)

Definition olist {A : Type} (o : option A) : list A :=
  match o with
  | Some a => [a]
  | None => []
  end.

(** The cleaned row of a correlated row, when the row is kept. *)
Definition clean_row (a : adjusted_row) : option cleaned_row :=
  match resolve_row a with
  | Some r =>
      if notna_row (host_row_of r) then finish_row (drop_resolution (host_row_of r))
      else None
  | None => None
  end.

(** [dropna] keeps the row. *)
Definition survives (a : adjusted_row) : bool :=
  notna (eventid a) && notna (r_eventid a) && notna (severity a)
  && notna (host_column_3 (host_pieces (hosts a))) && notna (name a).

(** The row raises no exception in any stage. *)
Definition row_ok (a : adjusted_row) : Prop :=
  exists c rc,
    py_int (clock a) = Some c /\ py_int (r_clock a) = Some rc /\
    (survives a = true ->
     in_timestamp_range c = true /\ in_timestamp_range (wrap64 (rc - c)) = true /\
     exists n, py_int (eventid a) = Some n).

Definition frame_ok (frame : list adjusted_row) : Prop :=
  Forall row_ok frame /\ Exists (fun a => has_host_column (hosts a)) frame.

(** The cleaned row of the pair of a problem event and its resolution
    event. *)
Definition cleaned_of (P R : raw_event) (n pc rc : Z) : cleaned_row :=
  Build_row n (strftime_mdY_HMS pc) tt
            (series_map severity_labels (raw_severity P))
            (host_column_3 (host_pieces (raw_hosts P))) (raw_name P) tt
            (strftime_HMS (rc - pc)).

(** No field of the event is missing once the host name is extracted:
    [dropna] keeps its rows. *)
Definition complete (P : raw_event) : bool :=
  notna (raw_eventid P) && notna (raw_r_eventid P) && notna (raw_severity P)
  && notna (host_column_3 (host_pieces (raw_hosts P))) && notna (raw_name P).

(** ** The two-event scenario *)

(** The batch of the scenario as it is given: event 1 carries
    [r_eventid = 0] and event 2 carries [r_eventid = 1]. *)
Definition scenario_batch : list raw_event :=
  [ mk_event (PInt 1) (PInt 1000) (PInt 0) (PStr "2") (one_host "10084" "HOSTA") (PStr "CPU high");
    mk_event (PInt 2) (PInt 1500) (PInt 1) (PStr "2") (HList []) (PStr "CPU high") ].

(** The same batch with the link in the direction the join follows: the
    problem event 1 names its resolution event 2. *)
Definition scenario_batch_resolved : list raw_event :=
  [ mk_event (PInt 1) (PInt 1000) (PInt 2) (PStr "2") (one_host "10084" "HOSTA") (PStr "CPU high");
    mk_event (PInt 2) (PInt 1500) (PInt 0) (PStr "2") (HList []) (PStr "CPU high") ].

Definition scenario_record : cleaned_row :=
  Build_row 1 "01/01/1970 00:16:40" tt (PStr "Warning") (PStr "HOSTA") (PStr "CPU high") tt "00:08:20".

(** ** Unresolved problems *)

(** The records that one event of the batch contributes to the output: the
    cleaned rows of its rows in the adjusted frame. *)
Definition contribution (args : list raw_event) (P : raw_event) : list cleaned_row :=
  flat_map (fun a => olist (clean_row a))
    (merge (fun r : dropped_row => r_eventid r) fst (fun r l => set_r_clock r (snd l))
           [drop_columns P] (restructure_dataframe (map drop_columns args))).

Definition scenario_resolution_event : raw_event :=
  mk_event (PInt 2) (PInt 1500) (PInt 0) (PStr "2") (HList []) (PStr "CPU high").

(** ** Severity labels *)

(** The label table, as the specification words it: each of the six codes
    has its label, and any other value has none. *)
Definition severity_label_spec (code : pyval) : pyval :=
  match code with
  | PStr "0" => PStr "Not Classified"
  | PStr "1" => PStr "Information"
  | PStr "2" => PStr "Warning"
  | PStr "3" => PStr "Average"
  | PStr "4" => PStr "High"
  | PStr "5" => PStr "Disaster"
  | _ => PNone
  end.

Definition severity_codes : list pyval :=
  [PStr "0"; PStr "1"; PStr "2"; PStr "3"; PStr "4"; PStr "5"].

(** The scenario batch with the unmapped severity code "9" on the problem
    event. *)
Definition unmapped_severity_batch : list raw_event :=
  [ mk_event (PInt 1) (PInt 1000) (PInt 2) (PStr "9") (one_host "10084" "HOSTA") (PStr "CPU high");
    mk_event (PInt 2) (PInt 1500) (PInt 0) (PStr "2") (HList []) (PStr "CPU high") ].

Definition scenario_adjusted_dataframe : list adjusted_dataframe_row :=
  [ Build_row (PInt 1) 1000 tt (PStr "2") (PStr "HOSTA") (PStr "CPU high") tt 500 ].

(** ** The resolution time *)

(** The [HH:MM:SS] rendering of a duration below 24 hours, as the
    specification words it: hours, minutes of the hour, seconds of the
    minute, two digits each. *)
Definition render_HMS_spec (d : Z) : string :=
  pad2 (d / 3600) ++ ":" ++ pad2 ((d / 60) mod 60) ++ ":" ++ pad2 (d mod 60).

(** A resolution 25 hours after the problem. *)
Definition long_outage_batch : list raw_event :=
  [ mk_event (PStr "7") (PStr "1000") (PStr "8") (PStr "4") (one_host "10084" "Zabbix server") (PStr "Link down");
    mk_event (PStr "8") (PStr "91000") (PStr "0") (PStr "4") (one_host "10084" "Zabbix server") (PStr "Link down") ].

Definition long_outage_record : cleaned_row :=
  Build_row 7 "01/01/1970 00:16:40" tt (PStr "High") (PStr "ZABBIX SERVER") (PStr "Link down") tt "01:00:00".

(** ** A resolution earlier than its problem *)

(** Events whose [eventid] and [clock] are integers, the clock far inside
    the range of timestamps: no stage raises on a batch of such events. *)
Definition well_formed (e : raw_event) : bool :=
  match py_int (raw_eventid e), py_int (raw_clock e) with
  | Some _, Some c => (-4611686018 <=? c) && (c <=? 4611686018)
  | _, _ => false
  end.

(** A resolution event stamped 500 seconds before its problem event. *)
Definition skewed_problem : raw_event :=
  mk_event (PStr "2") (PStr "1500") (PStr "1") (PStr "3") (one_host "10084" "web01") (PStr "Disk full").

Definition skewed_resolution : raw_event :=
  mk_event (PStr "1") (PStr "1000") (PStr "0") (PStr "3") (one_host "10084" "web01") (PStr "Disk full").

Definition skewed_batch : list raw_event := [skewed_resolution; skewed_problem].

(** ** The batches that the model follows *)

(** The keys of the two merges are compared as pandas compares them when
    the columns [eventid] and [r_eventid] are both of texts, as the API
    returns them, or both of 64-bit integers. *)
Definition is_text (v : pyval) : bool :=
  match v with
  | PStr _ => true
  | _ => false
  end.

Definition is_int64 (v : pyval) : bool :=
  match v with
  | PInt z => fits_int64 z
  | _ => false
  end.

Definition text_keys (args : list raw_event) : bool :=
  forallb (fun e => is_text (raw_eventid e) && is_text (raw_r_eventid e)) args.

Definition int_keys (args : list raw_event) : bool :=
  forallb (fun e => is_int64 (raw_eventid e) && is_int64 (raw_r_eventid e)) args.

Definition uniform_keys (args : list raw_event) : bool := text_keys args || int_keys args.

(** A clock that the conversion reads cell by cell: a text, or an integer
    of 64 bits; the column [clock] of a batch of such cells. *)
Definition clock_cell (v : pyval) : bool :=
  match v with
  | PNone => false
  | PInt z => fits_int64 z
  | PStr _ => true
  end.

Definition clock_cells (args : list raw_event) : bool :=
  forallb (fun e => clock_cell (raw_clock e)) args.

(** The first midnight of the range of timestamps, 09/22/1677 00:00:00. *)
Definition first_midnight : Z := (timestamp_min / 86400 + 1) * 86400.

(** ** The duration stage *)

(** Both timestamps of the row convert to 64-bit integers. *)
Definition coercible (a : adjusted_row) : bool :=
  match py_int (clock a), py_int (r_clock a) with
  | Some _, Some _ => true
  | _, _ => false
  end.

(** What a row gains in the stage: integer clocks and their difference in
    64-bit arithmetic, which is the exact difference when that fits. *)
Definition duration_gained (a : adjusted_row) (r : resolved_row) : Prop :=
  exists c rc,
    py_int (clock a) = Some c /\ py_int (r_clock a) = Some rc /\
    r = set_rts_clock (set_r_clock (set_clock a c) rc) (wrap64 (rc - c)) /\
    (int64_min <= rc - c <= int64_max -> rts_clock r = rc - c).

(** A batch whose problem event has a clock that is not an integer. *)
Definition malformed_clock_batch : list raw_event :=
  [ mk_event (PStr "1") (PStr "12:30") (PStr "2") (PStr "2") (one_host "10084" "HOSTA") (PStr "CPU high");
    mk_event (PStr "2") (PStr "1500") (PStr "0") (PStr "2") (HList []) (PStr "CPU high") ].

(** ** The display timestamp *)

(** The UTC calendar, as a specification: the proleptic Gregorian date and
    the time of day of a count of seconds since 1970-01-01 00:00:00 UTC,
    with no offset of any kind. *)
Definition is_leap (y : Z) : bool :=
  ((y mod 4 =? 0) && negb (y mod 100 =? 0)) || (y mod 400 =? 0).

Definition days_in_month (y m : Z) : Z :=
  if m =? 2 then (if is_leap y then 29 else 28)
  else if (m =? 4) || (m =? 6) || (m =? 9) || (m =? 11) then 30
  else 31.

Definition days_before_year (y : Z) : Z :=
  365 * (y - 1) + (y - 1) / 4 - (y - 1) / 100 + (y - 1) / 400.

Fixpoint days_before_month_aux (y : Z) (months : nat) : Z :=
  match months with
  | O => 0
  | S k => days_before_month_aux y k + days_in_month y (Z.of_nat (S k))
  end.

Definition days_before_month (y m : Z) : Z := days_before_month_aux y (Z.to_nat (m - 1)).

(** The day number of a date, counted from 1970-01-01. *)
Definition days_since_epoch (y m d : Z) : Z :=
  days_before_year y + days_before_month y m + d - 719163.

Definition utc_seconds (y mo d h mi s : Z) : Z :=
  days_since_epoch y mo d * 86400 + h * 3600 + mi * 60 + s.

Definition utc_fields (t y mo d h mi s : Z) : Prop :=
  1 <= mo <= 12 /\ 1 <= d <= days_in_month y mo /\
  0 <= h < 24 /\ 0 <= mi < 60 /\ 0 <= s < 60 /\
  utc_seconds y mo d h mi s = t.

(** Two problems opened in the same second, resolved at different times. *)
Definition same_second_batch : list raw_event :=
  [ mk_event (PStr "11") (PStr "1762167600") (PStr "13") (PStr "5") (one_host "10084" "db01") (PStr "Replication lag");
    mk_event (PStr "12") (PInt 1762167600) (PStr "14") (PStr "1") (one_host "10090" "db02") (PStr "Replication lag");
    mk_event (PStr "13") (PStr "1762167660") (PStr "0") (PStr "5") (one_host "10084" "db01") (PStr "Replication lag");
    mk_event (PStr "14") (PStr "1762171200") (PStr "0") (PStr "1") (one_host "10090" "db02") (PStr "Replication lag") ].

Definition same_second_record_1 : cleaned_row :=
  Build_row 11 "11/03/2025 11:00:00" tt (PStr "Disaster") (PStr "DB01") (PStr "Replication lag") tt "00:01:00".

Definition same_second_record_2 : cleaned_row :=
  Build_row 12 "11/03/2025 11:00:00" tt (PStr "Information") (PStr "DB02") (PStr "Replication lag") tt "01:00:00".

(** ** The host name *)

Fixpoint all_chars (p : ascii -> bool) (s : string) : bool :=
  match s with
  | EmptyString => true
  | String c s' => p c && all_chars p s'
  end.

(** A printable ASCII character that [repr] leaves as it is between single
    quotes. *)
Definition plain_char (c : ascii) : bool :=
  let n := nat_of_ascii c in
  ((32 <=? n) && (n <=? 126))%nat
  && negb (Ascii.eqb c PyStr.squote) && negb (Ascii.eqb c PyStr.backslash).

Definition plain (s : string) : bool := all_chars plain_char s.

Definition no_space (s : string) : bool :=
  all_chars (fun c => negb (Ascii.eqb c PyStr.space)) s.

Definition long_outage_problem : raw_event :=
  mk_event (PStr "7") (PStr "1000") (PStr "8") (PStr "4") (one_host "10084" "Zabbix server") (PStr "Link down").

Definition long_outage_resolution : raw_event :=
  mk_event (PStr "8") (PStr "91000") (PStr "0") (PStr "4") (one_host "10084" "Zabbix server") (PStr "Link down").

(** ** Correlation *)

(** The integer values of the [eventid]s of the batch are pairwise
    distinct. *)
Definition unique_eventids (args : list raw_event) : Prop :=
  NoDup (map (fun e => py_int (raw_eventid e)) args).

(** ** Events that share a resolution *)

(** The events of the batch whose [r_eventid] is [k], and those whose
    [eventid] is [k]. *)
Definition sharing (args : list raw_event) (k : pyval) : nat :=
  List.length (filter (fun Q => pyval_eqb k (raw_r_eventid Q)) args).

Definition carrying (args : list raw_event) (k : pyval) : nat :=
  List.length (filter (fun R => pyval_eqb k (raw_eventid R)) args).

(** Two problems closed by one resolution event. *)
Definition shared_problem : raw_event :=
  mk_event (PInt 1) (PInt 1000) (PInt 3) (PStr "2") (one_host "10084" "HOSTA") (PStr "CPU high").

Definition shared_resolution_batch : list raw_event :=
  [ shared_problem;
    mk_event (PInt 2) (PInt 1200) (PInt 3) (PStr "2") (one_host "10085" "HOSTB") (PStr "CPU high");
    mk_event (PInt 3) (PInt 1500) (PInt 0) (PStr "2") (HList []) (PStr "CPU high") ].

(** ** Events with two hosts *)

(** Two host descriptors. *)
Definition two_hosts (hostid1 host1 hostid2 host2 : string) : hosts_cell :=
  HList [ [("hostid", PStr hostid1); ("host", PStr host1)];
          [("hostid", PStr hostid2); ("host", PStr host2)] ].

(** The text that column 3 holds for two hosts: the first name, then the
    rest of the list up to the second name. *)
Definition two_hosts_text (host1 hostid2 host2 : string) : string :=
  PyStr.upper host1 ++ "'}, {'HOSTID': '" ++ PyStr.upper hostid2 ++ "', 'HOST': '"
  ++ PyStr.upper host2.

(** A problem on a cluster of two hosts, and its resolution. *)
Definition cluster_problem : raw_event :=
  mk_event (PStr "21") (PStr "5000") (PStr "22") (PStr "4")
           (two_hosts "10084" "node a" "10085" "node b") (PStr "Quorum lost").

Definition cluster_resolution : raw_event :=
  mk_event (PStr "22") (PStr "5600") (PStr "0") (PStr "4")
           (two_hosts "10084" "node a" "10085" "node b") (PStr "Quorum lost").

Definition cluster_batch : list raw_event := [cluster_problem; cluster_resolution].

Definition cluster_record : cleaned_row :=
  Build_row 21 "01/01/1970 01:23:20" tt (PStr "High")
            (PStr "NODE A'}, {'HOSTID': '10085', 'HOST': 'NODE B") (PStr "Quorum lost") tt
            "00:10:00".


(** * The chart data *)

(** The chart functions take the frame that [clean_data] returns.  What is
    modelled of each is the data it hands to plotly (the two lists of a
    trace); the rendering is plotly's. *)

(** ** Reading a display clock back: [pd.to_datetime] on the column [clock] *)

(** The column holds texts of the format [%m/%d/%Y %H:%M:%S] that
    [correct_datatypes] writes; the parser is modelled on this format, with
    two digits per field and four for the year. *)
Definition two_digits (a b : ascii) : option Z :=
  if PyStr.is_digit a && PyStr.is_digit b
  then Some (10 * PyStr.digit_val a + PyStr.digit_val b) else None.

Definition four_digits (a b c d : ascii) : option Z :=
  match two_digits a b, two_digits c d with
  | Some hi, Some lo => Some (100 * hi + lo)
  | _, _ => None
  end.

Definition parse_fields (s : string) : option (Z * Z * Z * Z * Z * Z) :=
  match s with
  | String m1 (String m2 (String "/" (String d1 (String d2 (String "/"
      (String y1 (String y2 (String y3 (String y4 (String " "
        (String h1 (String h2 (String ":" (String i1 (String i2 (String ":"
          (String s1 (String s2 EmptyString)))))))))))))))))) =>
      match two_digits m1 m2, two_digits d1 d2, four_digits y1 y2 y3 y4,
            two_digits h1 h2, two_digits i1 i2, two_digits s1 s2 with
      | Some mo, Some d, Some y, Some h, Some mi, Some sec => Some (y, mo, d, h, mi, sec)
      | _, _, _, _, _, _ => None
      end
  | _ => None
  end.

(** The fields are those of a date and a time of day. *)
Definition valid_fields (y mo d h mi s : Z) : bool :=
  (1 <=? mo) && (mo <=? 12) && (1 <=? d) && (d <=? days_in_month y mo)
  && (h <? 24) && (mi <? 60) && (s <? 60).

Definition parse_clock (s : string) : result Z :=
  match parse_fields s with
  | Some (y, mo, d, h, mi, sec) =>
      if valid_fields y mo d h mi sec then to_datetime (utc_seconds y mo d h mi sec)
      else Err ValueError
  | None => Err ValueError
  end.

(** [strftime("%H:%M")] and [dt.normalize()]. *)
Definition strftime_HM (t : Z) : string :=
  let sod := second_of_day t in
  pad2 (sod / 3600) ++ ":" ++ pad2 (sod mod 3600 / 60).

Definition normalize (t : Z) : Z := t - second_of_day t.

(** ** [value_counts().sort_index()] *)

Section ValueCounts.
Context {K : Type} (cmp : K -> K -> comparison).

(** One more occurrence of [k] in a series of counts indexed in ascending
    order. *)
Fixpoint count_key (k : K) (counts : list (K * nat)) : list (K * nat) :=
  match counts with
  | [] => [(k, 1%nat)]
  | (k', n) :: rest =>
      match cmp k k' with
      | Eq => (k', S n) :: rest
      | Lt => (k, 1%nat) :: counts
      | Gt => (k', n) :: count_key k rest
      end
  end.

(** The number of occurrences of every distinct value, in ascending order
    of the values. *)
Definition value_counts_sort_index (values : list K) : list (K * nat) :=
  fold_right count_key [] values.

(** The sum of the counts, the count held for a value, the occurrences of a
    value in a column, and a column in strictly ascending order. *)
Definition total (counts : list (K * nat)) : nat := list_sum (map snd counts).

Fixpoint count_of (k : K) (counts : list (K * nat)) : nat :=
  match counts with
  | [] => 0
  | (k', n) :: rest => match cmp k k' with Eq => n | _ => count_of k rest end
  end.

Definition occurrences (k : K) (values : list K) : nat :=
  List.length (filter (fun v => match cmp k v with Eq => true | _ => false end) values).

Definition ascending (keys : list K) : Prop := Sorted (fun a b => cmp a b = Lt) keys.

End ValueCounts.

(** ** The chart functions *)

(** Lines 175-195, [time_and_frequency]: the minutes of the day at which
    problems began, in ascending order, and the number of problems at
    each. *)
Definition time_and_frequency (args : list cleaned_row) : result (list string * list nat) :=
  clocks <- mapM (fun r : cleaned_row => parse_clock (clock r)) args ;;
  let dataframe := value_counts_sort_index String.compare (map strftime_HM clocks) in
  Ok (map fst dataframe, map snd dataframe).

(** Lines 198-219, [problems_per_day]: the days (as their midnight) on
    which problems began, in ascending order, and the number of problems of
    each. *)
Definition problems_per_day (args : list cleaned_row) : result (list Z * list nat) :=
  clocks <- mapM (fun r : cleaned_row => parse_clock (clock r)) args ;;
  let series_data := value_counts_sort_index Z.compare (map normalize clocks) in
  Ok (map fst series_data, map snd series_data).

(** Lines 135-148, the column [colors] of [problems_by_severity]. *)
Definition severity_colors : list (string * string) :=
  [ ("Not Classified", "#97AAB3");
    ("Information", "#7499FF");
    ("Warning", "#FFC859");
    ("Average", "#FFA059");
    ("High", "#E97659");
    ("Disaster", "#E45959") ].

Definition colors (args : list cleaned_row) : list pyval :=
  map (fun r : cleaned_row => series_map severity_colors (severity r)) args.

(** The clocks of a report are display clocks of timestamps in range. *)
Definition display_clock_of (o : cleaned_row) (t : Z) : Prop :=
  in_timestamp_range t = true /\ clock o = strftime_mdY_HMS t.


(** * Properties *)

(** ** The error monad and the frame operations *)

Lemma pyval_eqb_eq (a b : pyval) : pyval_eqb a b = true <-> a = b.
Proof.
  destruct a, b; simpl; split; intro H; try discriminate; try reflexivity.
  - apply Z.eqb_eq in H. now subst.
  - inversion H. apply Z.eqb_refl.
  - apply String.eqb_eq in H. now subst.
  - inversion H. apply String.eqb_refl.
Qed.

Lemma pyval_eqb_refl (a : pyval) : pyval_eqb a a = true.
Proof. now apply pyval_eqb_eq. Qed.

Lemma mapM_Ok {A B : Type} (f : A -> result B) (l : list A) (bs : list B) :
  mapM f l = Ok bs <-> Forall2 (fun a b => f a = Ok b) l bs.
Proof.
  revert bs. induction l as [|a l IH]; intros bs; simpl.
  - split; intro H.
    + inversion H. constructor.
    + inversion H. reflexivity.
  - split; intro H.
    + destruct (f a) as [b|e] eqn:Ha; simpl in H; [|discriminate].
      destruct (mapM f l) as [bs'|e] eqn:Hl; simpl in H; [|discriminate].
      inversion H; subst. constructor; [assumption|]. now apply IH.
    + inversion H as [|a' b l' bs' Ha Hl]; subst.
      rewrite Ha. simpl. apply IH in Hl. rewrite Hl. reflexivity.
Qed.

Lemma mapM_Err {A B : Type} (f : A -> result B) (l : list A) (e : error) :
  mapM f l = Err e -> exists a, In a l /\ f a = Err e.
Proof.
  induction l as [|a l IH]; simpl; intro H; [discriminate|].
  destruct (f a) as [b|e'] eqn:Ha; simpl in H.
  - destruct (mapM f l) as [bs|e''] eqn:Hl; simpl in H; [discriminate|].
    inversion H; subst. destruct (IH eq_refl) as [x [Hx Hfx]].
    exists x. split; [now right|assumption].
  - inversion H; subst. exists a. split; [now left|assumption].
Qed.

Lemma mapM_total {A B : Type} (f : A -> result B) (l : list A) :
  Forall (fun a => exists b, f a = Ok b) l -> exists bs, mapM f l = Ok bs.
Proof.
  induction 1 as [|a l [b Hb] _ [bs Hbs]]; simpl.
  - now exists [].
  - exists (b :: bs). rewrite Hb. simpl. rewrite Hbs. reflexivity.
Qed.

Lemma assign_Ok {A B R : Type} (f : A -> result B) (set : A -> B -> R)
    (frame : list A) (out : list R) :
  assign f set frame = Ok out <->
  Forall2 (fun r o => exists v, f r = Ok v /\ o = set r v) frame out.
Proof.
  unfold assign. rewrite mapM_Ok.
  split; intro H; induction H; constructor; try assumption.
  - destruct (f x) as [v|e] eqn:Hf; simpl in H; [|discriminate].
    inversion H; subst. now exists v.
  - destruct H as [v [Hf ->]]. rewrite Hf. reflexivity.
Qed.

Lemma in_merge {A B R : Type} (kl : A -> pyval) (kr : B -> pyval) (join : A -> B -> R)
    (left : list A) (right : list B) (x : R) :
  In x (merge kl kr join left right) <->
  exists a b, In a left /\ In b right /\ kl a = kr b /\ x = join a b.
Proof.
  unfold merge. rewrite in_flat_map. split.
  - intros [a [Ha Hx]]. apply in_map_iff in Hx. destruct Hx as [b [Hb Hin]].
    apply filter_In in Hin. destruct Hin as [Hin Hk].
    exists a, b. repeat split; try assumption.
    + now apply pyval_eqb_eq.
    + now symmetry.
  - intros [a [b [Ha [Hb [Hk ->]]]]]. exists a. split; [assumption|].
    apply in_map. apply filter_In. split; [assumption|]. now apply pyval_eqb_eq.
Qed.

Lemma create_resolved_time_Ok (args : list adjusted_row) (out : list resolved_row) :
  create_resolved_time args = Ok out <->
  Forall2 (fun a r => resolve_row a = Some r) args out.
Proof.
  unfold create_resolved_time. split.
  - intro H.
    destruct (assign _ set_clock args) as [f1|e] eqn:H1; simpl in H; [|discriminate].
    destruct (assign _ set_r_clock f1) as [f2|e] eqn:H2; simpl in H; [|discriminate].
    inversion H; subst; clear H.
    apply assign_Ok in H1. apply assign_Ok in H2.
    revert f2 H2. induction H1 as [|a r1 args f1 [c [Hc ->]] _ IH]; intros f2 H2.
    + inversion H2; subst. constructor.
    + inversion H2 as [|? r2 ? f2' [rc [Hrc ->]] H2']; subst. simpl. constructor.
      * unfold resolve_row, astype_int in *. simpl in Hrc.
        destruct (py_int (clock a)); [|discriminate].
        destruct (py_int (r_clock a)); [|discriminate].
        now inversion Hc; inversion Hrc; subst.
      * now apply IH.
  - intro H.
    destruct (assign _ set_clock args) as [f1|e] eqn:H1; simpl.
    + destruct (assign _ set_r_clock f1) as [f2|e] eqn:H2; simpl.
      * apply assign_Ok in H1. apply assign_Ok in H2. f_equal.
        revert f1 f2 H1 H2. induction H as [|a r args out Ha _ IH]; intros f1 f2 H1 H2.
        -- inversion H1; subst. inversion H2; subst. reflexivity.
        -- inversion H1 as [|? r1 ? f1' [c [Hc ->]] H1']; subst.
           inversion H2 as [|? r2 ? f2' [rc [Hrc ->]] H2']; subst.
           simpl. rewrite (IH _ _ H1' H2'). f_equal.
           unfold resolve_row, astype_int in *. simpl in Hrc.
           destruct (py_int (clock a)); [|discriminate].
           destruct (py_int (r_clock a)); [|discriminate].
           now inversion Hc; inversion Hrc; inversion Ha; subst.
      * exfalso. apply mapM_Err in H2. destruct H2 as [r1 [Hin Hr1]].
        apply assign_Ok in H1.
        assert (Hsrc : exists a, In a args /\ r_clock r1 = r_clock a).
        { clear - H1 Hin. induction H1 as [|a r args f1 [c [_ ->]] _ IH]; [contradiction|].
          destruct Hin as [<-|Hin].
          - exists a. split; [now left|reflexivity].
          - destruct (IH Hin) as [a' [Ha' He]]. exists a'. split; [now right|assumption]. }
        destruct Hsrc as [a [Ha He]].
        assert (Hres : exists r, resolve_row a = Some r).
        { clear - H Ha. induction H as [|a' r args out Hr _ IH]; [contradiction|].
          destruct Ha as [<-|Ha]; [now exists r|now apply IH]. }
        destruct Hres as [r Hr]. unfold resolve_row in Hr. unfold astype_int in Hr1.
        rewrite He in Hr1.
        destruct (py_int (clock a)); [|discriminate].
        destruct (py_int (r_clock a)); discriminate.
    + exfalso. apply mapM_Err in H1. destruct H1 as [a [Ha Hr1]].
      assert (Hres : exists r, resolve_row a = Some r).
      { clear - H Ha. induction H as [|a' r args out Hr _ IH]; [contradiction|].
        destruct Ha as [<-|Ha]; [now exists r|now apply IH]. }
      destruct Hres as [r Hr]. unfold resolve_row in Hr. unfold astype_int in Hr1.
      destruct (py_int (clock a)); discriminate.
Qed.

Lemma bind_Ok {A B : Type} (r : result A) (k : A -> result B) (b : B) :
  bind r k = Ok b <-> exists a, r = Ok a /\ k a = Ok b.
Proof.
  destruct r as [a|e]; simpl; split.
  - intro H. now exists a.
  - intros [a' [Ha H]]. now inversion Ha; subst.
  - discriminate.
  - intros [a' [Ha _]]. discriminate.
Qed.

Lemma Forall2_compose {A B C : Type} (R1 : A -> B -> Prop) (R2 : B -> C -> Prop)
    (l : list A) (l2 : list C) :
  (exists l1, Forall2 R1 l l1 /\ Forall2 R2 l1 l2) <->
  Forall2 (fun a c => exists b, R1 a b /\ R2 b c) l l2.
Proof.
  split.
  - intros [l1 [H1 H2]]. revert l2 H2.
    induction H1 as [|a b l l1 Hab _ IH]; intros l2 H2; inversion H2; subst; constructor.
    + now exists b.
    + now apply IH.
  - induction 1 as [|a c l l2 [b [Hab Hbc]] _ [l1 [H1 H2]]].
    + exists []. split; constructor.
    + exists (b :: l1). split; constructor; assumption.
Qed.

Lemma Forall2_map_r {A B C : Type} (R : A -> C -> Prop) (g : B -> C) (l : list A) (l1 : list B) :
  Forall2 R l (map g l1) <-> Forall2 (fun a b => R a (g b)) l l1.
Proof.
  revert l. induction l1 as [|b l1 IH]; intros l; simpl; split; intro H;
    inversion H; subst; constructor; try assumption; now apply IH.
Qed.

Lemma Forall2_map_l {A B C : Type} (R : B -> C -> Prop) (g : A -> B) (l : list A) (l2 : list C) :
  Forall2 R (map g l) l2 <-> Forall2 (fun a c => R (g a) c) l l2.
Proof.
  revert l2. induction l as [|a l IH]; intros l2; simpl; split; intro H;
    inversion H; subst; constructor; try assumption; now apply IH.
Qed.

Lemma Forall2_iff {A B : Type} (R1 R2 : A -> B -> Prop) (l : list A) (l' : list B) :
  (forall a b, R1 a b <-> R2 a b) -> Forall2 R1 l l' <-> Forall2 R2 l l'.
Proof.
  intro HR. split; induction 1; constructor; try assumption; now apply HR.
Qed.

Lemma finish_row_Some (h : adjusted_dataframe_row) (o : cleaned_row) :
  finish_row h = Some o <->
  exists n, in_timestamp_range (clock h) = true /\ in_timestamp_range (rts_clock h) = true /\
            py_int (eventid h) = Some n /\
            o = Build_row n (strftime_mdY_HMS (clock h)) tt
                  (series_map severity_labels (severity h)) (hosts h) (name h) tt
                  (strftime_HMS (rts_clock h)).
Proof.
  unfold finish_row. split.
  - destruct (in_timestamp_range (clock h)); [|discriminate].
    destruct (in_timestamp_range (rts_clock h)); [|discriminate]. simpl.
    destruct (py_int (eventid h)) as [n|]; [|discriminate].
    intro H. inversion H. now exists n.
  - intros [n [-> [-> [-> ->]]]]. reflexivity.
Qed.

Lemma correct_datatypes_Ok (args : list adjusted_dataframe_row) (out : list cleaned_row) :
  correct_datatypes args = Ok out <->
  Forall2 (fun h o => finish_row h = Some o) args out.
Proof.
  unfold correct_datatypes.
  rewrite bind_Ok.
  setoid_rewrite bind_Ok.
  setoid_rewrite assign_Ok.
  split.
  - intros [f1 [H1 [f2 [H2 H3]]]].
    apply Forall2_map_l in H3.
    revert f2 out H2 H3.
    induction H1 as [|h r1 args f1 [c [Hc ->]] _ IH]; intros f2 out H2 H3.
    + inversion H2; subst. inversion H3; subst. constructor.
    + inversion H2 as [|? r2 ? f2' [n [Hn ->]] H2']; subst.
      inversion H3 as [|? o ? out' [d [Hd ->]] H3']; subst.
      constructor; [|now apply (IH f2')].
      apply finish_row_Some. unfold to_datetime, astype_int in *. simpl in *.
      destruct (in_timestamp_range (clock h)); simpl in Hc; [|discriminate].
      destruct (in_timestamp_range (rts_clock h)); simpl in Hd; [|discriminate].
      destruct (py_int (eventid h)) as [n'|]; [|discriminate].
      exists n'. inversion Hc; inversion Hn; inversion Hd; subst.
      destruct h as [? ? [] ? ? ? [] ?]. now repeat split.
  - intro H.
    exists (map (fun h => set_clock h (strftime_mdY_HMS (clock h))) args). split.
    { induction H as [|h o args out Ho _ IH]; simpl; constructor; [|assumption].
      apply finish_row_Some in Ho. destruct Ho as [n [Hc _]].
      exists (strftime_mdY_HMS (clock h)). unfold to_datetime. rewrite Hc. now split. }
    exists (map (fun h => set_eventid (set_clock h (strftime_mdY_HMS (clock h)))
                           (match py_int (eventid h) with Some n => n | None => 0 end)) args).
    split.
    { apply Forall2_map_l, Forall2_map_r.
      induction H as [|h o args out Ho _ IH]; simpl; constructor; [|assumption].
      apply finish_row_Some in Ho. destruct Ho as [n [_ [_ [Hn ->]]]].
      exists n. unfold astype_int. simpl. rewrite Hn. now split. }
    apply Forall2_map_l, Forall2_map_l.
    induction H as [|h o args out Ho _ IH]; simpl; constructor; [|assumption].
    apply finish_row_Some in Ho. destruct Ho as [n [Hc [Hd [Hn ->]]]].
    exists (strftime_HMS (rts_clock h)). unfold to_datetime. simpl.
    rewrite Hd, Hn. destruct h as [? ? [] ? ? ? [] ?]. now split.
Qed.

Lemma list_max_gt (n : nat) (l : list nat) :
  (n < list_max l)%nat <-> Exists (fun x => (n < x)%nat) l.
Proof.
  induction l as [|x l IH]; simpl.
  - split; intro H; [lia|inversion H].
  - split; intro H.
    + destruct (Nat.max_spec x (list_max l)) as [[_ Hm]|[_ Hm]]; rewrite Hm in H.
      * right. now apply IH.
      * now left.
    + inversion H as [? ? Hx|? ? Hl]; subst.
      * lia.
      * apply IH in Hl. lia.
Qed.

Lemma host_columns_gt (args : list resolved_row) :
  (3 < list_max (map (@List.length string) (map (fun r : resolved_row => host_pieces (hosts r)) args)))%nat
  <-> Exists (fun r : resolved_row => has_host_column (hosts r)) args.
Proof.
  rewrite list_max_gt. unfold has_host_column.
  induction args as [|r args IH]; simpl.
  - split; intro H; inversion H.
  - split; intro H; inversion H; subst.
    + now left.
    + right. now apply IH.
    + now left.
    + right. now apply IH.
Qed.

Lemma host_series_adjustment_Ok (args : list resolved_row) (out : list adjusted_dataframe_row) :
  host_series_adjustment args = Ok out <->
  Exists (fun r => has_host_column (hosts r)) args /\
  out = map drop_resolution (dropna (map host_row_of args)).
Proof.
  unfold host_series_adjustment. rewrite <- host_columns_gt.
  destruct (3 <? _)%nat eqn:Hc.
  - apply Nat.ltb_lt in Hc. split.
    + intro H. inversion H. split; [exact Hc|reflexivity].
    + intros [_ ->]. reflexivity.
  - apply Nat.ltb_ge in Hc. split; [discriminate|].
    intros [Hlt _]. exfalso. apply (Nat.lt_irrefl 3).
    eapply Nat.lt_le_trans; [exact Hlt|exact Hc].
Qed.

Lemma resolve_row_Some (a : adjusted_row) (r : resolved_row) :
  resolve_row a = Some r <->
  exists c rc, py_int (clock a) = Some c /\ py_int (r_clock a) = Some rc /\
    r = Build_row (eventid a) c (r_eventid a) (severity a) (hosts a) (name a) rc (wrap64 (rc - c)).
Proof.
  unfold resolve_row. split.
  - destruct (py_int (clock a)) as [c|]; [|discriminate].
    destruct (py_int (r_clock a)) as [rc|]; [|discriminate].
    intro H. inversion H. exists c, rc. now repeat split.
  - intros [c [rc [-> [-> ->]]]]. reflexivity.
Qed.

Lemma clean_row_Some (a : adjusted_row) (o : cleaned_row) :
  clean_row a = Some o <->
  exists c rc n,
    py_int (clock a) = Some c /\ py_int (r_clock a) = Some rc /\
    survives a = true /\
    in_timestamp_range c = true /\ in_timestamp_range (wrap64 (rc - c)) = true /\
    py_int (eventid a) = Some n /\
    o = Build_row n (strftime_mdY_HMS c) tt (series_map severity_labels (severity a))
          (host_column_3 (host_pieces (hosts a))) (name a) tt
          (strftime_HMS (wrap64 (rc - c))).
Proof.
  unfold clean_row. split.
  - destruct (resolve_row a) as [r|] eqn:Hr; [|discriminate].
    apply resolve_row_Some in Hr. destruct Hr as [c [rc [Hc [Hrc ->]]]].
    destruct (notna_row _) eqn:Hk; [|discriminate].
    intro H. apply finish_row_Some in H. simpl in H.
    destruct H as [n [H1 [H2 [H3 ->]]]].
    exists c, rc, n. repeat split; assumption.
  - intros [c [rc [n [Hc [Hrc [Hs [H1 [H2 [Hn ->]]]]]]]]].
    unfold resolve_row. rewrite Hc, Hrc.
    unfold survives in Hs. unfold notna_row. simpl. rewrite Hs.
    apply finish_row_Some. exists n. simpl. now repeat split.
Qed.

Lemma clean_row_None (a : adjusted_row) :
  row_ok a -> clean_row a = None -> survives a = false.
Proof.
  intros [c [rc [Hc [Hrc Hs]]]] Hnone.
  destruct (survives a) eqn:Hsv; [|reflexivity].
  destruct (Hs eq_refl) as [H1 [H2 [n Hn]]].
  assert (Hsome : clean_row a = Some (Build_row n (strftime_mdY_HMS c) tt
            (series_map severity_labels (severity a))
            (host_column_3 (host_pieces (hosts a))) (name a) tt
            (strftime_HMS (wrap64 (rc - c))))).
  { apply clean_row_Some. exists c, rc, n. now repeat split. }
  congruence.
Qed.

Lemma survives_notna_row (a : adjusted_row) (r : resolved_row) :
  resolve_row a = Some r -> notna_row (host_row_of r) = survives a.
Proof.
  intro H. apply resolve_row_Some in H. destruct H as [c [rc [_ [_ ->]]]]. reflexivity.
Qed.

Lemma pipeline_rows (frame : list adjusted_row) (resolved : list resolved_row)
    (out : list cleaned_row) :
  Forall2 (fun a r => resolve_row a = Some r) frame resolved ->
  Forall2 (fun h o => finish_row h = Some o)
          (map drop_resolution (dropna (map host_row_of resolved))) out ->
  Forall row_ok frame /\ out = flat_map (fun a => olist (clean_row a)) frame.
Proof.
  intro H. revert out.
  induction H as [|a r frame resolved Har _ IH]; intros out Hout; simpl in *.
  - inversion Hout. split; [constructor|reflexivity].
  - pose proof (survives_notna_row _ _ Har) as Hsv.
    pose proof Har as Hres. apply resolve_row_Some in Hres.
    destruct Hres as [c [rc [Hc [Hrc Hr]]]].
    unfold clean_row at 1. rewrite Har.
    destruct (notna_row (host_row_of r)) eqn:Hk; simpl in Hout.
    + inversion Hout as [|? o ? out' Ho Hout']; subst out.
      destruct (IH _ Hout') as [Hok ->]. rewrite Ho. simpl. split; [|reflexivity].
      constructor; [|assumption].
      exists c, rc. repeat split; try assumption;
        apply finish_row_Some in Ho; destruct Ho as [n [Ht1 [Ht2 [Hn _]]]];
        rewrite Hr in Ht1, Ht2, Hn; simpl in Ht1, Ht2, Hn; try assumption.
      now exists n.
    + destruct (IH _ Hout) as [Hok ->]. split; [|reflexivity].
      constructor; [|assumption].
      exists c, rc. repeat split; try assumption; congruence.
Qed.

Lemma pipeline_rows_total (frame : list adjusted_row) :
  Forall row_ok frame ->
  exists resolved,
    Forall2 (fun a r => resolve_row a = Some r) frame resolved /\
    Forall2 (fun h o => finish_row h = Some o)
            (map drop_resolution (dropna (map host_row_of resolved)))
            (flat_map (fun a => olist (clean_row a)) frame).
Proof.
  induction 1 as [|a frame Ha _ [resolved [H1 H2]]].
  - exists []. split; constructor.
  - pose proof Ha as Hok. destruct Ha as [c [rc [Hc [Hrc Hs]]]].
    assert (Har : resolve_row a = Some (Build_row (eventid a) c (r_eventid a) (severity a)
                    (hosts a) (name a) rc (wrap64 (rc - c))))
      by (apply resolve_row_Some; exists c, rc; now repeat split).
    eexists (_ :: resolved). split; [constructor; [exact Har|exact H1]|].
    simpl. pose proof (survives_notna_row _ _ Har) as Hsv.
    unfold clean_row at 1. rewrite Har.
    destruct (notna_row _) eqn:Hk; simpl.
    + destruct (finish_row _) as [o|] eqn:Ho.
      * simpl. constructor; assumption.
      * exfalso. rewrite <- Hsv in Hs. destruct (Hs eq_refl) as [Hr1 [Hr2 [n Hn]]].
        unfold finish_row in Ho. simpl in Ho. rewrite Hr1, Hr2, Hn in Ho. discriminate.
    + exact H2.
Qed.

Lemma resolved_has_host_column (frame : list adjusted_row) (resolved : list resolved_row) :
  Forall2 (fun a r => resolve_row a = Some r) frame resolved ->
  Exists (fun r : resolved_row => has_host_column (hosts r)) resolved <->
  Exists (fun a : adjusted_row => has_host_column (hosts a)) frame.
Proof.
  induction 1 as [|a r frame resolved Har _ IH].
  - split; intro H; inversion H.
  - apply resolve_row_Some in Har. destruct Har as [c [rc [_ [_ ->]]]].
    split; intro H; inversion H; subst; simpl in *;
      try (now left); right; now apply IH.
Qed.

(** The pipeline returns a frame exactly when no row raises and the split
    has a column 3, and the frame then has the cleaned rows of the kept
    rows, in order. *)
Theorem clean_data_Ok (args : list raw_event) (out : list cleaned_row) :
  clean_data args = Ok out <->
  frame_ok (adjusted_frame (map drop_columns args)) /\
  out = flat_map (fun a => olist (clean_row a)) (adjusted_frame (map drop_columns args)).
Proof.
  unfold clean_data, frame_ok. cbv zeta.
  generalize (adjusted_frame (map drop_columns args)) as frame. intro frame.
  split.
  - intro H. apply bind_Ok in H. destruct H as [resolved [H1 H]].
    apply bind_Ok in H. destruct H as [h [H2 H3]].
    apply create_resolved_time_Ok in H1.
    apply host_series_adjustment_Ok in H2. destruct H2 as [Hex ->].
    apply correct_datatypes_Ok in H3.
    destruct (pipeline_rows _ _ _ H1 H3) as [Hok ->].
    repeat split; try assumption.
    now apply (resolved_has_host_column _ _ H1).
  - intros [[Hok Hex] ->].
    destruct (pipeline_rows_total _ Hok) as [resolved [H1 H2]].
    apply bind_Ok. exists resolved. split; [now apply create_resolved_time_Ok|].
    apply bind_Ok. eexists. split.
    + apply host_series_adjustment_Ok. split; [|reflexivity].
      now apply (resolved_has_host_column _ _ H1).
    + now apply correct_datatypes_Ok.
Qed.

(** ** The correlated rows *)

(** The rows of [restructure_dataframe]: one per pair of a row [i] and a
    row [j] of the batch with [r_eventid i = eventid j]. *)
Lemma restructure_dataframe_rows (frame : list dropped_row) :
  restructure_dataframe frame =
  flat_map (fun i : dropped_row =>
              map (fun j : dropped_row => (r_eventid i, clock j))
                  (filter (fun j : dropped_row => pyval_eqb (r_eventid i) (eventid j)) frame))
           frame.
Proof.
  unfold restructure_dataframe, create_resolution_time_dataframe, merge.
  rewrite flat_map_concat_map, concat_map, map_map, map_map, <- flat_map_concat_map.
  apply flat_map_ext. intro i.
  generalize frame as l. induction l as [|j l IH]; simpl; [reflexivity|].
  destruct (pyval_eqb (r_eventid i) (eventid j)); simpl; now rewrite IH.
Qed.

Lemma in_restructure_dataframe (frame : list dropped_row) (l : pyval * pyval) :
  In l (restructure_dataframe frame) <->
  exists i j, In i frame /\ In j frame /\ r_eventid i = eventid j /\ l = (r_eventid i, clock j).
Proof.
  rewrite restructure_dataframe_rows, in_flat_map. split.
  - intros [i [Hi Hl]]. apply in_map_iff in Hl. destruct Hl as [j [Hl Hj]].
    apply filter_In in Hj. destruct Hj as [Hj Hk]. apply pyval_eqb_eq in Hk.
    exists i, j. now repeat split.
  - intros [i [j [Hi [Hj [Hk ->]]]]]. exists i. split; [assumption|].
    apply in_map_iff. exists j. split; [reflexivity|].
    apply filter_In. split; [assumption|]. now apply pyval_eqb_eq.
Qed.

(** A row of the adjusted frame is a row [P] of the batch together with the
    clock of a row [R] of the batch whose [eventid] is the [r_eventid] of
    [P]. *)
Lemma in_adjusted_frame (frame : list dropped_row) (a : adjusted_row) :
  In a (adjusted_frame frame) <->
  exists P R, In P frame /\ In R frame /\ r_eventid P = eventid R /\
              a = set_r_clock P (clock R).
Proof.
  unfold adjusted_frame. rewrite in_merge. split.
  - intros [P [l [HP [Hl [Hk ->]]]]].
    apply in_restructure_dataframe in Hl. destruct Hl as [i [j [Hi [Hj [Hij ->]]]]].
    simpl in *. exists P, j. repeat split; try assumption. congruence.
  - intros [P [R [HP [HR [Hk ->]]]]].
    exists P, (r_eventid P, clock R). repeat split; try assumption.
    apply in_restructure_dataframe. exists P, R. now repeat split.
Qed.

Lemma wrap64_small (d : Z) :
  int64_min <= d <= int64_max -> wrap64 d = d.
Proof.
  unfold wrap64, int64_min, int64_max. intro H.
  rewrite Z.mod_small; lia.
Qed.

Lemma py_int_range (v : pyval) (z : Z) :
  py_int v = Some z -> int64_min <= z <= int64_max.
Proof.
  unfold py_int.
  assert (Hf : forall x, fits_int64 x = true -> int64_min <= x <= int64_max).
  { intros x Hx. unfold fits_int64 in Hx. apply andb_prop in Hx. destruct Hx as [H1 H2].
    apply Z.leb_le in H1. apply Z.leb_le in H2. lia. }
  destruct v as [|x|s]; [discriminate| |].
  - destruct (fits_int64 x) eqn:Hx; [|discriminate]. intro H. inversion H; subst. auto.
  - destruct (PyStr.int_of_str s) as [x|]; [|discriminate].
    destruct (fits_int64 x) eqn:Hx; [|discriminate]. intro H. inversion H; subst. auto.
Qed.

Lemma in_timestamp_range_spec (t : Z) :
  in_timestamp_range t = true <-> timestamp_min <= t <= timestamp_max.
Proof.
  unfold in_timestamp_range. rewrite andb_true_iff, !Z.leb_le. reflexivity.
Qed.

(** A duration that [to_datetime] accepts, between a clock that it accepts
    and a 64-bit clock, did not wrap around. *)
Lemma wrap64_exact (pc rc : Z) :
  in_timestamp_range pc = true ->
  int64_min <= rc <= int64_max ->
  in_timestamp_range (wrap64 (rc - pc)) = true ->
  wrap64 (rc - pc) = rc - pc.
Proof.
  rewrite !in_timestamp_range_spec.
  unfold wrap64, timestamp_min, timestamp_max, int64_min, int64_max.
  intros Hpc Hrc Hd.
  assert (Hm := Z.mod_pos_bound (rc - pc + 9223372036854775808) 18446744073709551616 ltac:(lia)).
  assert (Hq := Z.div_mod (rc - pc + 9223372036854775808) 18446744073709551616 ltac:(lia)).
  set (q := (rc - pc + 9223372036854775808) / 18446744073709551616) in *.
  set (m := (rc - pc + 9223372036854775808) mod 18446744073709551616) in *.
  assert (q = 0) by lia. lia.
Qed.

(** Soundness: every cleaned row comes from a problem event [P] of the
    batch and a resolution event [R] of the batch with
    [r_eventid P = eventid R]. *)
Lemma clean_data_sound (args : list raw_event) (out : list cleaned_row) (o : cleaned_row) :
  clean_data args = Ok out -> In o out ->
  exists P R n pc rc,
    In P args /\ In R args /\ raw_r_eventid P = raw_eventid R /\
    complete P = true /\
    py_int (raw_eventid P) = Some n /\
    py_int (raw_clock P) = Some pc /\ py_int (raw_clock R) = Some rc /\
    in_timestamp_range pc = true /\ in_timestamp_range (rc - pc) = true /\
    o = cleaned_of P R n pc rc.
Proof.
  intros Hrun Ho. apply clean_data_Ok in Hrun. destruct Hrun as [_ ->].
  apply in_flat_map in Ho. destruct Ho as [a [Ha Ho]].
  destruct (clean_row a) as [o'|] eqn:Hrow; simpl in Ho; [|contradiction].
  destruct Ho as [<-|[]].
  apply in_adjusted_frame in Ha. destruct Ha as [p [r [Hp [Hr [Hk ->]]]]].
  apply in_map_iff in Hp. destruct Hp as [P [<- HP]].
  apply in_map_iff in Hr. destruct Hr as [R [<- HR]].
  apply clean_row_Some in Hrow. simpl in Hrow.
  destruct Hrow as [pc [rc [n [Hpc [Hrc [Hs [H1 [H2 [Hn ->]]]]]]]]].
  pose proof (wrap64_exact pc rc H1 (py_int_range _ _ Hrc) H2) as Hw.
  exists P, R, n, pc, rc. rewrite Hw in *. now repeat split.
Qed.

(** Completeness: when the pipeline returns, the pair of a complete problem
    event and its resolution event has its cleaned row in the output. *)
Lemma clean_data_complete (args : list raw_event) (out : list cleaned_row) (P R : raw_event) :
  clean_data args = Ok out ->
  In P args -> In R args -> raw_r_eventid P = raw_eventid R ->
  complete P = true ->
  exists n pc rc,
    py_int (raw_eventid P) = Some n /\
    py_int (raw_clock P) = Some pc /\ py_int (raw_clock R) = Some rc /\
    in_timestamp_range pc = true /\ in_timestamp_range (rc - pc) = true /\
    In (cleaned_of P R n pc rc) out.
Proof.
  intros Hrun HP HR Hk Hc. apply clean_data_Ok in Hrun. destruct Hrun as [[Hok _] ->].
  set (a := set_r_clock (drop_columns P) (clock (drop_columns R)) : adjusted_row).
  assert (Ha : In a (adjusted_frame (map drop_columns args))).
  { apply in_adjusted_frame. exists (drop_columns P), (drop_columns R).
    repeat split; try (now apply in_map). exact Hk. }
  rewrite Forall_forall in Hok. destruct (Hok a Ha) as [pc [rc [Hpc [Hrc Hs]]]].
  destruct (Hs Hc) as [H1 [H2 [n Hn]]].
  pose proof (wrap64_exact pc rc H1 (py_int_range _ _ Hrc) H2) as Hw.
  exists n, pc, rc. rewrite Hw in H2. repeat split; try assumption.
  apply in_flat_map. exists a. split; [assumption|].
  assert (Hrow : clean_row a = Some (cleaned_of P R n pc rc)).
  { apply clean_row_Some. exists pc, rc, n. rewrite Hw. now repeat split. }
  rewrite Hrow. now left.
Qed.

(** ** The two-event scenario (C3) *)

(** In the scenario as given the only correlated row is event 2 (its
    [r_eventid] 1 is the [eventid] of event 1), whose host list is empty:
    the split has one column and the lookup of column 3 raises, whatever the
    hosts of event 1 are. *)
Lemma scenario_aborts_for_any_hosts (h : hosts_cell) :
  clean_data
    [ mk_event (PInt 1) (PInt 1000) (PInt 0) (PStr "2") h (PStr "CPU high");
      mk_event (PInt 2) (PInt 1500) (PInt 1) (PStr "2") (HList []) (PStr "CPU high") ]
  = Err KeyError.
Proof. reflexivity. Qed.

(** C3, as stated, fails: on the scenario batch the pipeline raises
    [KeyError] and returns no record. *)
Lemma scenario_as_stated_aborts :
  clean_data scenario_batch = Err KeyError /\
  clean_data scenario_batch <> Ok [scenario_record].
Proof. split; [reflexivity|discriminate]. Qed.

(** C3, amended: with [r_eventid = 2] on event 1 and [r_eventid = 0] on
    event 2, the pipeline returns exactly one record: eventid 1, clock
    "01/01/1970 00:16:40", rts_clock "00:08:20", severity "Warning", hosts
    "HOSTA", name "CPU high". *)
Theorem scenario_resolved_output :
  clean_data scenario_batch_resolved = Ok [scenario_record].
Proof. reflexivity. Qed.

(** ** Unresolved problems (C2) *)

Lemma flat_map_flat_map {A B C : Type} (f : A -> list B) (g : B -> list C) (l : list A) :
  flat_map g (flat_map f l) = flat_map (fun x => flat_map g (f x)) l.
Proof.
  induction l as [|a l IH]; simpl; [reflexivity|].
  now rewrite flat_map_app, IH.
Qed.

Lemma output_by_contribution (args : list raw_event) (out : list cleaned_row) :
  clean_data args = Ok out -> out = flat_map (contribution args) args.
Proof.
  intro H. apply clean_data_Ok in H. destruct H as [_ ->].
  unfold adjusted_frame, contribution, merge.
  rewrite flat_map_flat_map, flat_map_concat_map, map_map, <- flat_map_concat_map.
  apply flat_map_ext. intro P. simpl. now rewrite app_nil_r.
Qed.

Lemma contribution_unresolved (args : list raw_event) (P : raw_event) :
  raw_r_eventid P = PNone \/ (forall R, In R args -> raw_eventid R <> raw_r_eventid P) ->
  contribution args P = [].
Proof.
  intro H. unfold contribution.
  destruct (flat_map _ _) as [|o l] eqn:Hf; [reflexivity|]. exfalso.
  assert (Ho : In o (o :: l)) by now left. rewrite <- Hf in Ho. clear Hf.
  apply in_flat_map in Ho. destruct Ho as [a [Ha Ho]].
  destruct (clean_row a) as [o'|] eqn:Hrow; simpl in Ho; [|contradiction].
  apply clean_row_Some in Hrow.
  destruct Hrow as [c [rc [n [_ [_ [Hs _]]]]]].
  apply in_merge in Ha. destruct Ha as [p [lk [Hp [Hlk [Hk ->]]]]].
  destruct Hp as [<-|[]]. simpl in Hk, Hs.
  destruct H as [Hna|Hno].
  - unfold survives in Hs. simpl in Hs. rewrite Hna in Hs. simpl in Hs.
    rewrite andb_false_r in Hs. discriminate.
  - apply in_restructure_dataframe in Hlk. destruct Hlk as [i [j [_ [Hj [Hij ->]]]]].
    simpl in Hk. apply in_map_iff in Hj. destruct Hj as [R [<- HR]].
    apply (Hno R HR). simpl in Hij. congruence.
Qed.

(** C2, as stated, fails: a zero [r_eventid] is a key like any other.  When
    a record of the batch has [eventid = 0], the problem event with
    [r_eventid = 0] is joined to it and is reported. *)
Lemma zero_r_eventid_is_joined :
  let R := mk_event (PInt 0) (PInt 1500) (PInt 99) (PStr "2") (HList []) (PStr "CPU high") in
  let P := mk_event (PInt 1) (PInt 1000) (PInt 0) (PStr "2") (one_host "10084" "HOSTA") (PStr "CPU high") in
  raw_r_eventid P = PInt 0 /\
  clean_data [R; P] = Ok [scenario_record] /\
  contribution [R; P] P = [scenario_record].
Proof. repeat split. Qed.

(** C2, amended: a problem event whose [r_eventid] is absent, or is not
    the [eventid] of any record of the batch, contributes no record: its
    contribution is empty, and every record of the output is the record of
    another event, joined to the event that its [r_eventid] names.  (A
    zero [r_eventid] is excluded on that second ground whenever no record
    has [eventid] zero.) *)
Theorem unresolved_contributes_nothing (args : list raw_event) (out : list cleaned_row)
    (P : raw_event) :
  clean_data args = Ok out ->
  In P args ->
  raw_r_eventid P = PNone \/ (forall R, In R args -> raw_eventid R <> raw_r_eventid P) ->
  contribution args P = [] /\
  forall o, In o out ->
    exists Q R n pc rc,
      In Q args /\ In R args /\ Q <> P /\ raw_r_eventid Q = raw_eventid R /\
      py_int (raw_eventid Q) = Some n /\
      py_int (raw_clock Q) = Some pc /\ py_int (raw_clock R) = Some rc /\
      o = cleaned_of Q R n pc rc.
Proof.
  intros Hrun _ H. split; [now apply contribution_unresolved|].
  intros o Ho.
  destruct (clean_data_sound _ _ _ Hrun Ho)
    as [Q [R [n [pc [rc [HQ [HR [Hk [Hc [Hn [Hpc [Hrc [_ [_ ->]]]]]]]]]]]]]].
  exists Q, R, n, pc, rc. repeat split; try assumption.
  intros ->. destruct H as [Hna|Hno].
  - unfold complete in Hc. rewrite Hna in Hc. simpl in Hc.
    rewrite andb_false_r in Hc. discriminate.
  - apply (Hno R HR). now symmetry.
Qed.

Lemma unresolved_contributes_nothing_witness :
  clean_data scenario_batch_resolved = Ok [scenario_record] /\
  In scenario_resolution_event scenario_batch_resolved /\
  (raw_r_eventid scenario_resolution_event = PNone \/
   (forall R, In R scenario_batch_resolved ->
              raw_eventid R <> raw_r_eventid scenario_resolution_event)) /\
  contribution scenario_batch_resolved scenario_resolution_event = [] /\
  forall o, In o [scenario_record] ->
    exists Q R n pc rc,
      In Q scenario_batch_resolved /\ In R scenario_batch_resolved /\
      Q <> scenario_resolution_event /\ raw_r_eventid Q = raw_eventid R /\
      py_int (raw_eventid Q) = Some n /\
      py_int (raw_clock Q) = Some pc /\ py_int (raw_clock R) = Some rc /\
      o = cleaned_of Q R n pc rc.
Proof.
  assert (H1 : clean_data scenario_batch_resolved = Ok [scenario_record]) by reflexivity.
  assert (H2 : In scenario_resolution_event scenario_batch_resolved)
    by (right; left; reflexivity).
  assert (H3 : raw_r_eventid scenario_resolution_event = PNone \/
               (forall R, In R scenario_batch_resolved ->
                          raw_eventid R <> raw_r_eventid scenario_resolution_event)).
  { right. intros R [<-|[<-|[]]]; discriminate. }
  split; [exact H1|]. split; [exact H2|]. split; [exact H3|].
  exact (unresolved_contributes_nothing scenario_batch_resolved [scenario_record]
           scenario_resolution_event H1 H2 H3).
Defined.

(** ** Severity labels (C4) *)

Lemma series_map_severity (v : pyval) :
  series_map severity_labels v = severity_label_spec v.
Proof.
  destruct v as [| |s]; try reflexivity.
  unfold series_map, severity_labels, dict_get.
  repeat match goal with
  | |- context [String.eqb s ?k] =>
      destruct (String.eqb_spec s k) as [->|?]; [reflexivity|]
  end.
  unfold severity_label_spec.
  repeat match goal with
  | |- context [match ?x with _ => _ end] => destruct x; try reflexivity; try congruence
  end.
Qed.

Lemma severity_outside_codes (v : pyval) :
  ~ In v severity_codes -> series_map severity_labels v = PNone.
Proof.
  intro H. destruct v as [| |s]; try reflexivity.
  unfold series_map, severity_labels, dict_get.
  repeat match goal with
  | |- context [String.eqb s ?k] =>
      destruct (String.eqb_spec s k) as [->|?]; [exfalso; apply H; simpl; tauto|]
  end.
  reflexivity.
Qed.

Lemma finish_row_recode (h : adjusted_dataframe_row) (o : cleaned_row) (v : pyval) :
  finish_row h = Some o ->
  finish_row (set_severity h v) = Some (set_severity o (series_map severity_labels v)).
Proof.
  intro H. apply finish_row_Some in H. destruct H as [n [H1 [H2 [Hn ->]]]].
  apply finish_row_Some. exists n. now repeat split.
Qed.

(** C4: the severity mapping is a function that gives each of the six codes
    its label of the fixed table and gives any other code the missing
    value, which is none of the six labels; the stage labels every row of
    its frame so, and whatever codes the rows carry it returns a frame and
    raises no exception for them. *)
Theorem severity_totality (args : list adjusted_dataframe_row) (out : list cleaned_row)
    (recode : pyval -> pyval) :
  correct_datatypes args = Ok out ->
  (forall v, series_map severity_labels v = severity_label_spec v) /\
  (forall v, ~ In v severity_codes ->
             series_map severity_labels v = PNone /\
             forall c, In c severity_codes ->
                       series_map severity_labels v <> series_map severity_labels c) /\
  map severity out = map (fun r => series_map severity_labels (severity r)) args /\
  exists out',
    correct_datatypes (map (fun r => set_severity r (recode (severity r))) args) = Ok out' /\
    map severity out' = map (fun r => series_map severity_labels (recode (severity r))) args.
Proof.
  intro H. apply correct_datatypes_Ok in H.
  split; [exact series_map_severity|].
  split.
  { intros v Hv. split; [now apply severity_outside_codes|].
    intros c Hc. rewrite (severity_outside_codes v Hv).
    simpl in Hc. destruct Hc as [<-|[<-|[<-|[<-|[<-|[<-|[]]]]]]]; discriminate. }
  split.
  { induction H as [|h o args out Ho _ IH]; simpl; [reflexivity|].
    rewrite IH. f_equal. apply finish_row_Some in Ho. destruct Ho as [n [_ [_ [_ ->]]]].
    reflexivity. }
  assert (Hre : exists out',
             Forall2 (fun h o => finish_row h = Some o)
                     (map (fun r => set_severity r (recode (severity r))) args) out' /\
             map severity out' = map (fun r => series_map severity_labels (recode (severity r))) args).
  { induction H as [|h o args out Ho _ [out' [IH1 IH2]]]; simpl.
    - exists []. split; [constructor|reflexivity].
    - exists (set_severity o (series_map severity_labels (recode (severity h))) :: out').
      split.
      + constructor; [now apply finish_row_recode|assumption].
      + simpl. now rewrite IH2. }
  destruct Hre as [out' [H1 H2]]. exists out'. split; [|assumption].
  now apply correct_datatypes_Ok.
Qed.

(** The record of a problem with an unmapped code is present, its label
    missing. *)
Example unmapped_severity_output :
  clean_data unmapped_severity_batch =
  Ok [Build_row 1 "01/01/1970 00:16:40" tt PNone (PStr "HOSTA") (PStr "CPU high") tt "00:08:20"].
Proof. reflexivity. Qed.

Lemma severity_totality_witness :
  correct_datatypes scenario_adjusted_dataframe = Ok [scenario_record] /\
  series_map severity_labels (PStr "9") = PNone /\
  exists out',
    correct_datatypes
      (map (fun r => set_severity r ((fun _ => PStr "9") (severity r))) scenario_adjusted_dataframe)
    = Ok out' /\
    map severity out' = [PNone].
Proof.
  assert (H : correct_datatypes scenario_adjusted_dataframe = Ok [scenario_record])
    by reflexivity.
  destruct (severity_totality scenario_adjusted_dataframe [scenario_record]
              (fun _ => PStr "9") H) as [_ [H2 [_ H4]]].
  split; [exact H|]. split.
  - apply H2. simpl. intros [E|[E|[E|[E|[E|[E|[]]]]]]]; discriminate.
  - exact H4.
Defined.

(** ** The rendering of a duration *)

Lemma strftime_HMS_mod_24h (t : Z) :
  strftime_HMS t = render_HMS_spec (t mod 86400).
Proof.
  unfold strftime_HMS, render_HMS_spec, second_of_day.
  assert (H : 0 <= t mod 86400 < 86400) by (apply Z.mod_pos_bound; lia).
  set (s := t mod 86400) in *.
  replace (s mod 3600 / 60) with ((s / 60) mod 60); [reflexivity|].
  Z.div_mod_to_equations. lia.
Qed.

(** ** A resolution earlier than its problem (C10) *)

Lemma well_formed_spec (e : raw_event) :
  well_formed e = true ->
  exists n c, py_int (raw_eventid e) = Some n /\ py_int (raw_clock e) = Some c /\
              -4611686018 <= c <= 4611686018.
Proof.
  unfold well_formed.
  destruct (py_int (raw_eventid e)) as [n|]; [|discriminate].
  destruct (py_int (raw_clock e)) as [c|]; [|discriminate].
  intro H. apply andb_prop in H. destruct H as [H1 H2].
  apply Z.leb_le in H1. apply Z.leb_le in H2. exists n, c. repeat split; assumption.
Qed.

Lemma well_formed_rows_ok (args : list raw_event) :
  forallb well_formed args = true ->
  Forall row_ok (adjusted_frame (map drop_columns args)).
Proof.
  intro Hwf. rewrite forallb_forall in Hwf.
  apply Forall_forall. intros a Ha.
  apply in_adjusted_frame in Ha. destruct Ha as [p [r [Hp [Hr [_ ->]]]]].
  apply in_map_iff in Hp. destruct Hp as [P [<- HP]].
  apply in_map_iff in Hr. destruct Hr as [R [<- HR]].
  destruct (well_formed_spec _ (Hwf P HP)) as [n [c [Hn [Hc Hcb]]]].
  destruct (well_formed_spec _ (Hwf R HR)) as [_ [rc [_ [Hrc Hrcb]]]].
  exists c, rc. simpl. repeat split; try assumption.
  - apply in_timestamp_range_spec. unfold timestamp_min, timestamp_max. lia.
  - rewrite wrap64_small by (unfold int64_min, int64_max; lia).
    apply in_timestamp_range_spec. unfold timestamp_min, timestamp_max. lia.
  - now exists n.
Qed.

Lemma complete_has_host_column (P : raw_event) :
  complete P = true -> has_host_column (raw_hosts P).
Proof.
  unfold complete, has_host_column, host_column_3. intro H.
  rewrite !andb_true_iff in H. destruct H as [[_ H] _].
  destruct (nth_error (host_pieces (raw_hosts P)) 3) as [s|] eqn:Hn; [|discriminate].
  apply nth_error_Some. congruence.
Qed.



Example skewed_batch_output :
  clean_data skewed_batch =
  Ok [Build_row 2 "01/01/1970 00:25:00" tt (PStr "Average") (PStr "WEB01") (PStr "Disk full") tt "23:51:40"].
Proof. reflexivity. Qed.

(** ** The resolution time (C6) *)

(** On a batch of well-formed events the run returns, and the record of a
    complete problem event and its resolution event is in the output. *)
Lemma well_formed_pair_reported (args : list raw_event) (P R : raw_event) (pc rc : Z) :
  forallb well_formed args = true ->
  In P args -> In R args -> raw_r_eventid P = raw_eventid R ->
  complete P = true ->
  py_int (raw_clock P) = Some pc -> py_int (raw_clock R) = Some rc ->
  exists out n,
    clean_data args = Ok out /\ py_int (raw_eventid P) = Some n /\
    In (cleaned_of P R n pc rc) out.
Proof.
  intros Hwf HP HR Hk Hc Hpc Hrc.
  set (frame := adjusted_frame (map drop_columns args)).
  assert (Hok : frame_ok frame).
  { split; [now apply well_formed_rows_ok|].
    apply Exists_exists.
    exists (set_r_clock (drop_columns P) (clock (drop_columns R))). split.
    - apply in_adjusted_frame. exists (drop_columns P), (drop_columns R).
      split; [now apply in_map|]. split; [now apply in_map|]. split; [exact Hk|reflexivity].
    - simpl. now apply complete_has_host_column. }
  assert (Hrun : clean_data args = Ok (flat_map (fun a => olist (clean_row a)) frame)).
  { apply clean_data_Ok. split; [exact Hok|reflexivity]. }
  destruct (clean_data_complete _ _ P R Hrun HP HR Hk Hc)
    as [n [pc' [rc' [Hn [Hpc' [Hrc' [_ [_ Hin]]]]]]]].
  rewrite Hpc in Hpc'. rewrite Hrc in Hrc'.
  injection Hpc' as <-. injection Hrc' as <-.
  exists (flat_map (fun a => olist (clean_row a)) frame), n.
  split; [exact Hrun|]. split; [exact Hn|exact Hin].
Qed.

Lemma render_HMS_spec_length (d : Z) : String.length (render_HMS_spec d) = 8%nat.
Proof. reflexivity. Qed.



(** ** The duration stage (C7) *)

Lemma astype_int_Err (v : pyval) (e : error) :
  astype_int v = Err e -> py_int v = None /\ (e = ValueError \/ e = OverflowError).
Proof.
  unfold astype_int. destruct (py_int v); [discriminate|].
  intro E. inversion E. split; [reflexivity|].
  unfold refusal. destruct v as [|z|s]; [now left|now right|].
  destruct (PyStr.int_of_str s); [now right|now left].
Qed.

Lemma create_resolved_time_Err (frame : list adjusted_row) (e : error) :
  create_resolved_time frame = Err e -> e = ValueError \/ e = OverflowError.
Proof.
  unfold create_resolved_time. intro H.
  destruct (assign _ set_clock frame) as [f1|e1] eqn:H1; simpl in H.
  - destruct (assign _ set_r_clock f1) as [f2|e2] eqn:H2; simpl in H; [discriminate|].
    inversion H; subst. apply mapM_Err in H2. destruct H2 as [x [_ Hx]].
    destruct (astype_int (r_clock x)) as [v|e'] eqn:Hv; simpl in Hx; [discriminate|].
    inversion Hx; subst. exact (proj2 (astype_int_Err _ _ Hv)).
  - inversion H; subst. apply mapM_Err in H1. destruct H1 as [x [_ Hx]].
    destruct (astype_int (clock x)) as [v|e'] eqn:Hv; simpl in Hx; [discriminate|].
    inversion Hx; subst. exact (proj2 (astype_int_Err _ _ Hv)).
Qed.

Lemma coercible_resolve (a : adjusted_row) :
  coercible a = true <-> exists r, resolve_row a = Some r.
Proof.
  unfold coercible, resolve_row.
  destruct (py_int (clock a)); destruct (py_int (r_clock a)); split;
    try discriminate; try (intros [r Hr]; discriminate); try reflexivity.
  intros _. eexists. reflexivity.
Qed.

Lemma create_resolved_time_total (frame : list adjusted_row) :
  forallb coercible frame = true ->
  exists resolved, Forall2 (fun a r => resolve_row a = Some r) frame resolved.
Proof.
  induction frame as [|a frame IH]; simpl; intro H.
  - exists []. constructor.
  - apply andb_prop in H. destruct H as [Ha Hf].
    apply coercible_resolve in Ha. destruct Ha as [r Hr].
    destruct (IH Hf) as [resolved Hres].
    exists (r :: resolved). now constructor.
Qed.

Lemma create_resolved_time_fails (frame : list adjusted_row) :
  forallb coercible frame = false ->
  exists e, (e = ValueError \/ e = OverflowError) /\ create_resolved_time frame = Err e.
Proof.
  intro H. destruct (create_resolved_time frame) as [resolved|e] eqn:Hrun.
  - exfalso. apply create_resolved_time_Ok in Hrun.
    assert (Hall : forallb coercible frame = true).
    { clear H. induction Hrun as [|a r frame resolved Har _ IH]; simpl; [reflexivity|].
      rewrite IH, andb_true_r. apply coercible_resolve. now exists r. }
    congruence.
  - exists e. split; [now apply create_resolved_time_Err in Hrun|reflexivity].
Qed.




(** ** The display timestamp (C9) *)

(** The leap years, by their residues. *)
Lemma is_leap_cases (y : Z) :
  (is_leap y = true /\ (y mod 4 = 0 /\ y mod 100 <> 0 \/ y mod 400 = 0)) \/
  (is_leap y = false /\ (y mod 4 <> 0 \/ y mod 100 = 0) /\ y mod 400 <> 0).
Proof.
  unfold is_leap.
  destruct (Z.eqb_spec (y mod 4) 0); destruct (Z.eqb_spec (y mod 100) 0);
    destruct (Z.eqb_spec (y mod 400) 0); simpl; intuition lia.
Qed.


(** The year of the 400-year era and the day of that year, counted from
    March 1st; day 365 exists only before a leap February. *)
Lemma year_of_era (doe : Z) :
  0 <= doe <= 146096 ->
  let yoe := (doe - doe / 1460 + doe / 36524 - doe / 146096) / 365 in
  let doy := doe - (365 * yoe + yoe / 4 - yoe / 100) in
  (0 <= yoe <= 399) /\ (0 <= doy <= 365) /\
  (doy = 365 -> (yoe + 1) mod 4 = 0 /\ ((yoe + 1) mod 100 <> 0 \/ yoe = 399)).
Proof.
  intros H yoe doy. subst doy yoe.
  Z.div_mod_to_equations; lia.
Qed.

(** The days of a year before a month, as a closed form. *)
Lemma days_before_month_table (y m : Z) :
  1 <= m <= 12 ->
  days_before_month y m
  = (if m <? 3 then 31 * (m - 1)
     else (153 * (m - 3) + 2) / 5 + 59 + (if is_leap y then 1 else 0)).
Proof.
  intro H.
  assert (Hc : m = 1 \/ m = 2 \/ m = 3 \/ m = 4 \/ m = 5 \/ m = 6 \/ m = 7
               \/ m = 8 \/ m = 9 \/ m = 10 \/ m = 11 \/ m = 12) by lia.
  unfold days_before_month.
  repeat (destruct Hc as [->|Hc]); try subst m;
    match goal with
    | |- context [Z.to_nat ?e] =>
        let n := eval vm_compute in (Z.to_nat e) in change (Z.to_nat e) with n
    end;
    cbn [days_before_month_aux]; unfold days_in_month;
    generalize (is_leap y); intros [|]; vm_compute; reflexivity.
Qed.

Lemma days_before_year_era (era yoe : Z) :
  0 <= yoe <= 399 ->
  days_before_year (yoe + era * 400 + 1)
  = 146097 * era + 365 * yoe + yoe / 4 - yoe / 100.
Proof.
  intro H. unfold days_before_year.
  Z.div_mod_to_equations; lia.
Qed.

Lemma leap_day_era (era yoe : Z) :
  0 <= yoe <= 399 ->
  days_before_year (yoe + era * 400) + (if is_leap (yoe + era * 400) then 1 else 0)
  = 146097 * era + 365 * yoe + yoe / 4 - yoe / 100 - 365.
Proof.
  intro H. unfold days_before_year.
  destruct (is_leap_cases (yoe + era * 400)) as [[-> Hl]|[-> Hl]];
    Z.div_mod_to_equations; lia.
Qed.

(** The month and the day of the month, from the day of the year counted
    from March 1st. *)
Lemma month_of_year (doy : Z) :
  0 <= doy <= 365 ->
  let mp := (5 * doy + 2) / 153 in
  let d := doy - (153 * mp + 2) / 5 + 1 in
  (0 <= mp <= 11) /\
  (1 <= d) /\
  (mp <= 9 -> d <= (if ((mp + 3 =? 4) || (mp + 3 =? 6) || (mp + 3 =? 9) || (mp + 3 =? 11)) then 30 else 31)) /\
  (mp = 10 -> d <= 31) /\
  (mp = 11 -> d <= 29 /\ (d = 29 -> doy = 365)).
Proof.
  intros H mp d.
  assert (Hmp : 0 <= mp <= 11) by (subst mp; Z.div_mod_to_equations; lia).
  assert (Hc : mp = 0 \/ mp = 1 \/ mp = 2 \/ mp = 3 \/ mp = 4 \/ mp = 5 \/ mp = 6
               \/ mp = 7 \/ mp = 8 \/ mp = 9 \/ mp = 10 \/ mp = 11) by lia.
  assert (Hdef : 153 * mp <= 5 * doy + 2 < 153 * (mp + 1))
    by (subst mp; Z.div_mod_to_equations; lia).
  subst d. clearbody mp.
  repeat (destruct Hc as [->|Hc]); try subst mp; cbn;
    (split; [lia|]); repeat split; try lia; intros; try lia.
Qed.

(** [civil_from_days] inverts [days_since_epoch] and returns a date of the
    calendar. *)
Lemma civil_from_days_correct (z y m d : Z) :
  civil_from_days z = (y, m, d) ->
  1 <= m <= 12 /\ 1 <= d <= days_in_month y m /\ days_since_epoch y m d = z.
Proof.
  unfold civil_from_days.
  set (era := (z + 719468) / 146097).
  set (doe := z + 719468 - era * 146097).
  assert (Hdoe : 0 <= doe <= 146096) by (subst doe era; Z.div_mod_to_equations; lia).
  assert (Hz : z = era * 146097 + doe - 719468) by (subst doe; lia).
  clearbody doe. clearbody era. 
  pose proof (year_of_era doe Hdoe) as HA. cbv zeta in HA.
  set (yoe := (doe - doe / 1460 + doe / 36524 - doe / 146096) / 365) in *.
  set (doy := doe - (365 * yoe + yoe / 4 - yoe / 100)) in *.
  destruct HA as [Hyoe [Hdoy Hleap]].
  assert (Hdoe' : doe = 365 * yoe + yoe / 4 - yoe / 100 + doy) by (subst doy; lia).
  clearbody doy. clearbody yoe. subst doe. clear Hdoe.
  pose proof (month_of_year doy Hdoy) as HB. cbv zeta in HB.
  set (mp := (5 * doy + 2) / 153) in *.
  set (dd := doy - (153 * mp + 2) / 5 + 1) in *.
  destruct HB as [Hmp [Hd1 [Hd30 [Hd31 Hd29]]]].
  assert (Hdd : doy = (153 * mp + 2) / 5 + dd - 1) by (subst dd; lia).
  clearbody dd. clearbody mp.
  unfold days_since_epoch.
  destruct (Z.ltb_spec mp 10) as [Hlt|Hge].
  - (* March to December *)
    destruct (Z.leb_spec (mp + 3) 2) as [?|_]; [lia|].
    rewrite Z.add_0_r.
    intro H. injection H as Hy Hm Hd. subst y m d.
    rewrite days_before_month_table by lia.
    destruct (Z.ltb_spec (mp + 3) 3) as [?|_]; [lia|].
    replace (mp + 3 - 3) with mp by lia.
    pose proof (leap_day_era era yoe Hyoe) as HL.
    split; [lia|]. split.
    2:{ set (L := if is_leap (yoe + era * 400) then 1 else 0) in *.
        set (DY := days_before_year (yoe + era * 400)) in *.
        clearbody L DY. clear - HL Hz Hdd. lia. }
    split; [lia|]. unfold days_in_month.
    destruct (Z.eqb_spec (mp + 3) 2) as [?|_]; [lia|].
    apply Hd30. lia.
  - (* January and February *)
    destruct (Z.leb_spec (mp - 9) 2) as [_|?]; [|lia].
    intro H. injection H as Hy Hm Hd. subst y m d.
    rewrite days_before_month_table by lia.
    destruct (Z.ltb_spec (mp - 9) 3) as [_|?]; [|lia].
    pose proof (days_before_year_era era yoe Hyoe) as HY.
    assert (Hc : mp = 10 \/ mp = 11) by lia.
    destruct Hc as [Hmp10|Hmp11].
    + subst mp. change ((153 * 10 + 2) / 5) with 306 in Hdd.
      change (10 - 9) with 1.
      split; [lia|]. split; [|lia].
      split; [lia|]. change (days_in_month (yoe + era * 400 + 1) 1) with 31.
      now apply Hd31.
    + subst mp. change ((153 * 11 + 2) / 5) with 337 in Hdd.
      change (11 - 9) with 2.
      split; [lia|]. split; [|lia].
      split; [lia|]. unfold days_in_month. change (2 =? 2) with true. cbv iota.
      destruct (Hd29 eq_refl) as [Hle Heq].
      destruct (is_leap_cases (yoe + era * 400 + 1)) as [[-> _]|[-> Hnl]]; [lia|].
      assert (dd <> 29); [|lia].
      intro E. specialize (Hleap (Heq E)).
      clear - Hleap Hnl Hyoe. Z.div_mod_to_equations. lia.
Qed.

(** The display timestamp shows the UTC fields of the timestamp. *)
Lemma strftime_mdY_HMS_utc (t : Z) :
  exists y mo d h mi s,
    utc_fields t y mo d h mi s /\
    strftime_mdY_HMS t =
    pad2 mo ++ "/" ++ pad2 d ++ "/" ++ pad4 y ++ " " ++ pad2 h ++ ":" ++ pad2 mi ++ ":" ++ pad2 s.
Proof.
  unfold strftime_mdY_HMS, strftime_HMS.
  destruct (civil_from_days (day_number t)) as [[y mo] d] eqn:Hc.
  destruct (civil_from_days_correct _ _ _ _ Hc) as [Hm [Hd Hz]].
  exists y, mo, d, (second_of_day t / 3600), (second_of_day t mod 3600 / 60),
         (second_of_day t mod 60).
  split; [|reflexivity].
  unfold utc_fields, utc_seconds. rewrite Hz.
  unfold day_number, second_of_day.
  repeat split; try lia; Z.div_mod_to_equations; lia.
Qed.

(** C9: the display clock of every output record is the rendering of the
    integer timestamp of its problem event alone, with the fields of that
    timestamp in UTC; two output records whose events have equal clock
    values carry equal clock strings. *)
Theorem clock_is_utc_rendering (args : list raw_event) (out : list cleaned_row)
    (o1 o2 : cleaned_row) :
  clean_data args = Ok out -> In o1 out -> In o2 out ->
  exists P1 P2 pc1 pc2,
    In P1 args /\ In P2 args /\
    py_int (raw_eventid P1) = Some (eventid o1) /\
    py_int (raw_eventid P2) = Some (eventid o2) /\
    py_int (raw_clock P1) = Some pc1 /\ py_int (raw_clock P2) = Some pc2 /\
    clock o1 = strftime_mdY_HMS pc1 /\ clock o2 = strftime_mdY_HMS pc2 /\
    (exists y mo d h mi s,
       utc_fields pc1 y mo d h mi s /\
       clock o1 =
       pad2 mo ++ "/" ++ pad2 d ++ "/" ++ pad4 y ++ " " ++ pad2 h ++ ":" ++ pad2 mi ++ ":" ++ pad2 s) /\
    (pc1 = pc2 -> clock o1 = clock o2).
Proof.
  intros Hrun H1 H2.
  destruct (clean_data_sound _ _ _ Hrun H1)
    as [P1 [R1 [n1 [pc1 [rc1 [HP1 [_ [_ [_ [Hn1 [Hpc1 [_ [Hr1 [_ ->]]]]]]]]]]]]]].
  destruct (clean_data_sound _ _ _ Hrun H2)
    as [P2 [R2 [n2 [pc2 [rc2 [HP2 [_ [_ [_ [Hn2 [Hpc2 [_ [Hr2 [_ ->]]]]]]]]]]]]]].
  exists P1, P2, pc1, pc2. simpl.
  repeat split; try assumption.
  - apply strftime_mdY_HMS_utc.
  - intros ->. reflexivity.
Qed.

Lemma clock_is_utc_rendering_witness :
  clean_data same_second_batch = Ok [same_second_record_1; same_second_record_2] /\
  In same_second_record_1 [same_second_record_1; same_second_record_2] /\
  In same_second_record_2 [same_second_record_1; same_second_record_2] /\
  exists P1 P2 pc1 pc2,
    In P1 same_second_batch /\ In P2 same_second_batch /\
    py_int (raw_eventid P1) = Some (eventid same_second_record_1) /\
    py_int (raw_eventid P2) = Some (eventid same_second_record_2) /\
    py_int (raw_clock P1) = Some pc1 /\ py_int (raw_clock P2) = Some pc2 /\
    clock same_second_record_1 = strftime_mdY_HMS pc1 /\
    clock same_second_record_2 = strftime_mdY_HMS pc2 /\
    (exists y mo d h mi s,
       utc_fields pc1 y mo d h mi s /\
       clock same_second_record_1 =
       pad2 mo ++ "/" ++ pad2 d ++ "/" ++ pad4 y ++ " " ++ pad2 h ++ ":" ++ pad2 mi ++ ":" ++ pad2 s) /\
    (pc1 = pc2 -> clock same_second_record_1 = clock same_second_record_2).
Proof.
  assert (H1 : clean_data same_second_batch = Ok [same_second_record_1; same_second_record_2])
    by (vm_compute; reflexivity).
  assert (H2 : In same_second_record_1 [same_second_record_1; same_second_record_2])
    by (left; reflexivity).
  assert (H3 : In same_second_record_2 [same_second_record_1; same_second_record_2])
    by (right; left; reflexivity).
  repeat split; try assumption.
  apply (clock_is_utc_rendering same_second_batch
           [same_second_record_1; same_second_record_2]
           same_second_record_1 same_second_record_2 H1 H2 H3).
Defined.

(** ** The host name (C5) *)

Lemma append_assoc (a b c : string) : (a ++ b) ++ c = a ++ (b ++ c).
Proof. induction a as [|x a IH]; simpl; [reflexivity|now rewrite IH]. Qed.

Lemma all_chars_app (p : ascii -> bool) (a b : string) :
  all_chars p (a ++ b) = all_chars p a && all_chars p b.
Proof.
  induction a as [|x a IH]; simpl; [reflexivity|]. now rewrite IH, andb_assoc.
Qed.

Lemma all_chars_impl (p q : ascii -> bool) (s : string) :
  (forall c, p c = true -> q c = true) -> all_chars p s = true -> all_chars q s = true.
Proof.
  intro Hpq. induction s as [|c s IH]; simpl; [reflexivity|].
  intro H. apply andb_prop in H. destruct H as [Hc Hs].
  now rewrite (Hpq c Hc), (IH Hs).
Qed.

Lemma upper_app (a b : string) : PyStr.upper (a ++ b) = PyStr.upper a ++ PyStr.upper b.
Proof. induction a as [|x a IH]; simpl; [reflexivity|now rewrite IH]. Qed.

Lemma upper_char_eqb (c q : ascii) :
  (nat_of_ascii q < 65)%nat -> Ascii.eqb (PyStr.upper_char c) q = Ascii.eqb c q.
Proof.
  intro Hq. unfold PyStr.upper_char.
  destruct ((97 <=? nat_of_ascii c)%nat && (nat_of_ascii c <=? 122)%nat) eqn:Hc; [|reflexivity].
  apply andb_prop in Hc. destruct Hc as [H1 H2].
  apply Nat.leb_le in H1. apply Nat.leb_le in H2.
  transitivity false; [|symmetry]; apply Ascii.eqb_neq; intro E.
  - apply (f_equal nat_of_ascii) in E. rewrite nat_ascii_embedding in E; lia.
  - subst q. lia.
Qed.

Lemma upper_all_chars (q : ascii) (s : string) :
  (nat_of_ascii q < 65)%nat ->
  all_chars (fun c => negb (Ascii.eqb c q)) (PyStr.upper s)
  = all_chars (fun c => negb (Ascii.eqb c q)) s.
Proof.
  intro Hq. induction s as [|c s IH]; simpl; [reflexivity|].
  now rewrite IH, upper_char_eqb.
Qed.

(** [repr] of a plain string puts it between single quotes. *)
Lemma repr_body_plain (s : string) :
  plain s = true -> PyStr.repr_body PyStr.squote s = s.
Proof.
  induction s as [|c s IH]; simpl; [reflexivity|].
  intro H. apply andb_prop in H. destruct H as [Hc Hs]. rewrite (IH Hs).
  unfold plain_char in Hc. rewrite !andb_true_iff, !negb_true_iff in Hc.
  destruct Hc as [[[H1 H2] H3] H4]. apply Nat.leb_le in H1. apply Nat.leb_le in H2.
  unfold PyStr.repr_char. rewrite H3, H4. simpl.
  destruct (Nat.eqb_spec (nat_of_ascii c) 9); [lia|].
  destruct (Nat.eqb_spec (nat_of_ascii c) 10); [lia|].
  destruct (Nat.eqb_spec (nat_of_ascii c) 13); [lia|].
  destruct (Nat.ltb_spec (nat_of_ascii c) 32); [lia|].
  destruct (Nat.eqb_spec (nat_of_ascii c) 127); [lia|].
  reflexivity.
Qed.

Lemma plain_no_squote (s : string) :
  plain s = true -> PyStr.mem PyStr.squote s = false.
Proof.
  unfold plain. induction s as [|c s IH]; cbn [all_chars PyStr.mem]; [reflexivity|].
  intro H. apply andb_prop in H. destruct H as [Hc Hs]. rewrite (IH Hs), orb_false_r.
  unfold plain_char in Hc. rewrite !andb_true_iff, !negb_true_iff in Hc.
  destruct Hc as [[_ H3] _]. now rewrite Ascii.eqb_sym.
Qed.

Lemma repr_plain (s : string) :
  plain s = true -> PyStr.repr s = String PyStr.squote (s ++ String PyStr.squote EmptyString).
Proof.
  intro H. unfold PyStr.repr. rewrite (plain_no_squote s H). simpl.
  now rewrite (repr_body_plain s H).
Qed.

(** Stripping at the right end. *)
Lemma rstrip_app (cs s t : string) :
  PyStr.rstrip cs t <> EmptyString ->
  PyStr.rstrip cs (s ++ t) = s ++ PyStr.rstrip cs t.
Proof.
  intro Ht. induction s as [|c s IH]; simpl; [reflexivity|].
  rewrite IH. destruct (s ++ PyStr.rstrip cs t) eqn:E; [|reflexivity].
  exfalso. destruct s; simpl in E; [contradiction|discriminate].
Qed.

Lemma rstrip_clean (cs s t : string) :
  all_chars (fun c => negb (PyStr.mem c cs)) s = true ->
  PyStr.rstrip cs (s ++ t) = s ++ PyStr.rstrip cs t.
Proof.
  induction s as [|c s IH]; simpl; [reflexivity|].
  intro H. apply andb_prop in H. destruct H as [Hc Hs]. rewrite (IH Hs).
  apply negb_true_iff in Hc. rewrite Hc.
  destruct (s ++ PyStr.rstrip cs t); reflexivity.
Qed.

Lemma lstrip_clean (cs s t : string) :
  all_chars (fun c => negb (PyStr.mem c cs)) s = true ->
  s <> EmptyString ->
  PyStr.lstrip cs (s ++ t) = s ++ t.
Proof.
  destruct s as [|c s]; [contradiction|]. simpl.
  intros H _. apply andb_prop in H. destruct H as [Hc _].
  apply negb_true_iff in Hc. now rewrite Hc.
Qed.

(** A text without quotes, between two quotes, stripped of its quotes. *)
Lemma strip_quoted (s : string) :
  all_chars (fun c => negb (Ascii.eqb c PyStr.squote)) s = true ->
  PyStr.strip "''" (String PyStr.squote (s ++ String PyStr.squote EmptyString)) = s.
Proof.
  intro H.
  assert (Hs : all_chars (fun c => negb (PyStr.mem c "''")) s = true).
  { revert H. apply all_chars_impl. intros c Hc. simpl.
    apply negb_true_iff in Hc. unfold PyStr.squote in Hc. now rewrite Hc. }
  unfold PyStr.strip. simpl.
  destruct s as [|c s].
  - reflexivity.
  - rewrite (lstrip_clean "''" (String c s)) by (assumption || discriminate).
    rewrite rstrip_clean by assumption. simpl.
    clear. induction s as [|d s IH]; simpl; [reflexivity|].
    inversion IH as [E]. now rewrite !E.
Qed.

(** Cutting at the first space. *)
Lemma cut_app (a b : string) :
  no_space a = true -> PyStr.cut (a ++ String PyStr.space b) = Some (a, b).
Proof.
  induction a as [|c a IH]; simpl.
  - intros _. reflexivity.
  - intro H. apply andb_prop in H. destruct H as [Hc Ha].
    apply negb_true_iff in Hc. rewrite Hc, (IH Ha). reflexivity.
Qed.

Lemma str_hosts_one_host (hostid host : string) :
  plain hostid = true -> plain host = true ->
  str_hosts (one_host hostid host)
  = "[{'hostid': '" ++ hostid ++ "', 'host': '" ++ host ++ "'}]".
Proof.
  intros Hid Hh. unfold str_hosts, one_host, repr_dict, repr_item.
  cbn [map PyStr.join fst snd repr_val].
  rewrite (repr_plain hostid Hid), (repr_plain host Hh).
  change (PyStr.repr "hostid") with "'hostid'".
  change (PyStr.repr "host") with "'host'".
  unfold PyStr.squote. repeat (rewrite ?append_assoc; cbn [append]). reflexivity.
Qed.

(** The four pieces of the text of one host descriptor. *)
Lemma host_pieces_one_host (hostid host : string) :
  plain hostid = true -> no_space hostid = true -> plain host = true ->
  host_pieces (one_host hostid host)
  = [ "'HOSTID':"; "'" ++ PyStr.upper hostid ++ "',"; "'HOST':";
      "'" ++ PyStr.upper host ++ "'" ].
Proof.
  intros Hid Hsp Hh. unfold host_pieces.
  rewrite (str_hosts_one_host hostid host Hid Hh).
  rewrite !upper_app.
  change (PyStr.upper "[{'hostid': '") with "[{'HOSTID': '".
  change (PyStr.upper "', 'host': '") with "', 'HOST': '".
  change (PyStr.upper "'}]") with "'}]".
  set (ID := PyStr.upper hostid). set (NM := PyStr.upper host).
  assert (HID : no_space ID = true).
  { unfold no_space, ID. rewrite upper_all_chars; [exact Hsp|apply Nat.ltb_lt; reflexivity]. }
  (* strip "[]" *)
  unfold PyStr.strip at 2.
  change (PyStr.lstrip "[]" ("[{'HOSTID': '" ++ ID ++ "', 'HOST': '" ++ NM ++ "'}]"))
    with ("{'HOSTID': '" ++ ID ++ "', 'HOST': '" ++ NM ++ "'}]").
  replace ("{'HOSTID': '" ++ ID ++ "', 'HOST': '" ++ NM ++ "'}]")
    with (("{'HOSTID': '" ++ ID ++ "', 'HOST': '" ++ NM) ++ "'}]")
    by (now rewrite !append_assoc).
  rewrite rstrip_app by (vm_compute; discriminate).
  change (PyStr.rstrip "[]" "'}]") with "'}".
  (* strip "{}" *)
  unfold PyStr.strip.
  rewrite !append_assoc.
  change (PyStr.lstrip "{}" ("{'HOSTID': '" ++ ID ++ "', 'HOST': '" ++ NM ++ "'}"))
    with ("'HOSTID': '" ++ ID ++ "', 'HOST': '" ++ NM ++ "'}").
  replace ("'HOSTID': '" ++ ID ++ "', 'HOST': '" ++ NM ++ "'}")
    with (("'HOSTID': '" ++ ID ++ "', 'HOST': '" ++ NM) ++ "'}")
    by (now rewrite !append_assoc).
  rewrite rstrip_app by (vm_compute; discriminate).
  change (PyStr.rstrip "{}" "'}") with "'".
  rewrite !append_assoc.
  (* split(" ", 3) *)
  cbn [PyStr.split].
  change ("'HOSTID': '" ++ ID ++ "', 'HOST': '" ++ NM ++ "'")
    with ("'HOSTID':" ++ String PyStr.space ("'" ++ ID ++ "', 'HOST': '" ++ NM ++ "'")).
  rewrite cut_app by reflexivity.
  replace ("'" ++ ID ++ "', 'HOST': '" ++ NM ++ "'")
    with (("'" ++ ID ++ "',") ++ String PyStr.space ("'HOST': '" ++ NM ++ "'"))
    by (now rewrite !append_assoc).
  rewrite cut_app
    by (unfold no_space in *; rewrite !all_chars_app, HID; reflexivity).
  change ("'HOST': '" ++ NM ++ "'")
    with ("'HOST':" ++ String PyStr.space ("'" ++ NM ++ "'")).
  rewrite cut_app by reflexivity.
  reflexivity.
Qed.

(** The host name that the pipeline extracts from one host descriptor is
    the upper-cased display name. *)
Lemma host_column_3_one_host (hostid host : string) :
  plain hostid = true -> no_space hostid = true -> plain host = true ->
  nth_error (host_pieces (one_host hostid host)) 3
    = Some ("'" ++ PyStr.upper host ++ "'") /\
  host_column_3 (host_pieces (one_host hostid host)) = PStr (PyStr.upper host).
Proof.
  intros Hid Hsp Hh. unfold host_column_3.
  rewrite (host_pieces_one_host hostid host Hid Hsp Hh). cbn [nth_error].
  split; [reflexivity|]. f_equal.
  change ("'" ++ PyStr.upper host ++ "'")
    with (String PyStr.squote (PyStr.upper host ++ String PyStr.squote EmptyString)).
  apply strip_quoted.
  rewrite upper_all_chars by (apply Nat.ltb_lt; reflexivity).
  revert Hh. apply all_chars_impl. intros c Hc.
  unfold plain_char in Hc. rewrite !andb_true_iff in Hc. tauto.
Qed.

(** C5: for a correlated record whose [hosts] field holds exactly one host
    descriptor of the expected shape, the piece at index 3 of the split
    text is the quoted upper-cased display name, and the record of the
    output carries that name with its quotes stripped. *)
Theorem host_name_extracted (args : list raw_event) (out : list cleaned_row)
    (P R : raw_event) (hostid host : string) :
  clean_data args = Ok out ->
  In P args -> In R args -> raw_r_eventid P = raw_eventid R ->
  raw_hosts P = one_host hostid host ->
  plain hostid = true -> no_space hostid = true -> plain host = true ->
  notna (raw_eventid P) && notna (raw_r_eventid P)
    && notna (raw_severity P) && notna (raw_name P) = true ->
  nth_error (host_pieces (raw_hosts P)) 3 = Some ("'" ++ PyStr.upper host ++ "'") /\
  exists n pc rc,
    py_int (raw_eventid P) = Some n /\
    In (cleaned_of P R n pc rc) out /\
    hosts (cleaned_of P R n pc rc) = PStr (PyStr.upper host).
Proof.
  intros Hrun HP HR Hk Hh Hid Hsp Hpl Hna.
  destruct (host_column_3_one_host hostid host Hid Hsp Hpl) as [H3 Hcol].
  rewrite <- Hh in H3, Hcol. split; [exact H3|].
  assert (Hc : complete P = true).
  { unfold complete. rewrite Hcol. rewrite !andb_true_iff in Hna.
    destruct Hna as [[[H1 H2] H4] H5]. now rewrite H1, H2, H4, H5. }
  destruct (clean_data_complete _ _ P R Hrun HP HR Hk Hc)
    as [n [pc [rc [Hn [_ [_ [_ [_ Hin]]]]]]]].
  exists n, pc, rc. repeat split; try assumption.
Qed.

Lemma host_name_extracted_witness :
  clean_data long_outage_batch = Ok [long_outage_record] /\
  In long_outage_problem long_outage_batch /\
  In long_outage_resolution long_outage_batch /\
  raw_r_eventid long_outage_problem = raw_eventid long_outage_resolution /\
  raw_hosts long_outage_problem = one_host "10084" "Zabbix server" /\
  plain "10084" = true /\ no_space "10084" = true /\ plain "Zabbix server" = true /\
  notna (raw_eventid long_outage_problem) && notna (raw_r_eventid long_outage_problem)
    && notna (raw_severity long_outage_problem) && notna (raw_name long_outage_problem) = true /\
  nth_error (host_pieces (raw_hosts long_outage_problem)) 3
    = Some ("'" ++ PyStr.upper "Zabbix server" ++ "'") /\
  exists n pc rc,
    py_int (raw_eventid long_outage_problem) = Some n /\
    In (cleaned_of long_outage_problem long_outage_resolution n pc rc) [long_outage_record] /\
    hosts (cleaned_of long_outage_problem long_outage_resolution n pc rc)
    = PStr (PyStr.upper "Zabbix server").
Proof.
  assert (H1 : clean_data long_outage_batch = Ok [long_outage_record]) by reflexivity.
  assert (H2 : In long_outage_problem long_outage_batch) by (left; reflexivity).
  assert (H3 : In long_outage_resolution long_outage_batch) by (right; left; reflexivity).
  assert (H4 : raw_r_eventid long_outage_problem = raw_eventid long_outage_resolution)
    by reflexivity.
  assert (H5 : raw_hosts long_outage_problem = one_host "10084" "Zabbix server") by reflexivity.
  assert (H6 : plain "10084" = true) by reflexivity.
  assert (H7 : no_space "10084" = true) by reflexivity.
  assert (H8 : plain "Zabbix server" = true) by reflexivity.
  assert (H9 : notna (raw_eventid long_outage_problem) && notna (raw_r_eventid long_outage_problem)
                 && notna (raw_severity long_outage_problem) && notna (raw_name long_outage_problem) = true)
    by reflexivity.
  do 9 (split; [assumption|]).
  apply (host_name_extracted long_outage_batch [long_outage_record]
           long_outage_problem long_outage_resolution "10084" "Zabbix server"
           H1 H2 H3 H4 H5 H6 H7 H8 H9).
Defined.

(** ** Correlation (C1) *)

Lemma filter_flat_map {A B : Type} (f : B -> bool) (g : A -> list B) (l : list A) :
  filter f (flat_map g l) = flat_map (fun x => filter f (g x)) l.
Proof.
  induction l as [|a l IH]; simpl; [reflexivity|]. now rewrite filter_app, IH.
Qed.

Lemma flat_map_nil {A B : Type} (g : A -> list B) (l : list A) :
  (forall x, In x l -> g x = []) -> flat_map g l = [].
Proof.
  induction l as [|a l IH]; simpl; intro H; [reflexivity|].
  rewrite (H a) by now left. simpl. apply IH. intros x Hx. apply H. now right.
Qed.

Lemma filter_nil {A : Type} (f : A -> bool) (l : list A) :
  (forall x, In x l -> f x = false) -> filter f l = [].
Proof.
  induction l as [|a l IH]; simpl; intro H; [reflexivity|].
  rewrite (H a) by now left. apply IH. intros x Hx. apply H. now right.
Qed.

Lemma flat_map_only {A B : Type} (g : A -> list B) (l l1 l2 : list A) (x : A) :
  l = (l1 ++ x :: l2)%list ->
  (forall y, In y (l1 ++ l2) -> g y = []) ->
  flat_map g l = g x.
Proof.
  intros -> H. rewrite flat_map_app. simpl.
  rewrite (flat_map_nil g l1), (flat_map_nil g l2).
  - now rewrite app_nil_r.
  - intros y Hy. apply H. apply in_or_app. now right.
  - intros y Hy. apply H. apply in_or_app. now left.
Qed.

Lemma filter_only {A : Type} (f : A -> bool) (l l1 l2 : list A) (x : A) :
  l = (l1 ++ x :: l2)%list ->
  f x = true -> (forall y, In y (l1 ++ l2) -> f y = false) ->
  filter f l = [x].
Proof.
  intros -> Hx H. rewrite filter_app. simpl. rewrite Hx.
  rewrite (filter_nil f l1), (filter_nil f l2).
  - reflexivity.
  - intros y Hy. apply H. apply in_or_app. now right.
  - intros y Hy. apply H. apply in_or_app. now left.
Qed.

Lemma NoDup_map_others {A B : Type} (k : A -> B) (l1 l2 : list A) (x : A) :
  NoDup (map k (l1 ++ x :: l2)) ->
  forall y, In y (l1 ++ l2) -> k y <> k x.
Proof.
  intros H y Hy E. rewrite map_app in H. simpl in H.
  apply NoDup_remove_2 in H. apply H. rewrite <- map_app, <- E. now apply in_map.
Qed.

(** With distinct [eventid]s, the link of a resolved problem that shares
    its [r_eventid] with no other row is the only link with that key. *)
Lemma only_link (args before after : list raw_event) (P R : raw_event) :
  args = (before ++ P :: after)%list ->
  unique_eventids args ->
  In R args -> raw_r_eventid P = raw_eventid R ->
  (forall Q, In Q (before ++ after) -> raw_r_eventid Q <> raw_r_eventid P) ->
  filter (fun l : pyval * pyval => pyval_eqb (raw_r_eventid P) (fst l))
         (restructure_dataframe (map drop_columns args))
  = [(raw_r_eventid P, raw_clock R)].
Proof.
  intros Hargs Huniq HR Hk Hshare.
  rewrite restructure_dataframe_rows, filter_flat_map.
  assert (HD : map drop_columns args
               = (map drop_columns before ++ drop_columns P :: map drop_columns after)%list)
    by (rewrite Hargs, map_app; reflexivity).
  rewrite (flat_map_only _ _ _ _ _ HD).
  - simpl. rewrite filter_map_swap.
    rewrite (filter_ext (fun l : dropped_row => pyval_eqb (raw_r_eventid P) (raw_r_eventid P))
                        (fun _ => true))
      by (intro; apply pyval_eqb_refl).
    assert (Hall : forall (A : Type) (l : list A), filter (fun _ => true) l = l).
    { intros A l. induction l as [|a l IH]; simpl; [reflexivity|now rewrite IH]. }
    rewrite Hall.
    destruct (in_split _ _ HR) as [m1 [m2 Hsplit]].
    assert (HD2 : map drop_columns args
                  = (map drop_columns m1 ++ drop_columns R :: map drop_columns m2)%list)
      by (rewrite Hsplit, map_app; reflexivity).
    rewrite (filter_only _ _ _ _ _ HD2).
    + reflexivity.
    + simpl. now apply pyval_eqb_eq.
    + intros y Hy. rewrite <- map_app in Hy. apply in_map_iff in Hy.
      destruct Hy as [Q [<- HQ]]. simpl.
      destruct (pyval_eqb (raw_r_eventid P) (raw_eventid Q)) eqn:E; [|reflexivity].
      exfalso. apply pyval_eqb_eq in E.
      unfold unique_eventids in Huniq. rewrite Hsplit in Huniq.
      apply (NoDup_map_others _ _ _ _ Huniq Q HQ). congruence.
  - intros y Hy. rewrite <- map_app in Hy. apply in_map_iff in Hy.
    destruct Hy as [Q [<- HQ]]. simpl.
    apply filter_nil. intros l Hl. apply in_map_iff in Hl.
    destruct Hl as [j [<- _]]. simpl.
    destruct (pyval_eqb (raw_r_eventid P) (raw_r_eventid Q)) eqn:E; [|reflexivity].
    exfalso. apply pyval_eqb_eq in E. apply (Hshare Q HQ). now symmetry.
Qed.

Lemma contribution_eventid (args : list raw_event) (Q : raw_event) (o : cleaned_row) :
  In o (contribution args Q) -> py_int (raw_eventid Q) = Some (eventid o).
Proof.
  unfold contribution. intro Ho. apply in_flat_map in Ho. destruct Ho as [a [Ha Ho]].
  destruct (clean_row a) as [o'|] eqn:Hrow; simpl in Ho; [|contradiction].
  destruct Ho as [<-|[]].
  apply in_merge in Ha. destruct Ha as [p [l [Hp [_ [_ ->]]]]].
  destruct Hp as [<-|[]].
  apply clean_row_Some in Hrow. simpl in Hrow.
  destruct Hrow as [c [rc [n [_ [_ [_ [_ [_ [Hn ->]]]]]]]]]. exact Hn.
Qed.

Lemma contribution_only (args before after : list raw_event) (P R : raw_event) :
  args = (before ++ P :: after)%list ->
  unique_eventids args ->
  In R args -> raw_r_eventid P = raw_eventid R ->
  (forall Q, In Q (before ++ after) -> raw_r_eventid Q <> raw_r_eventid P) ->
  contribution args P
  = olist (clean_row (set_r_clock (drop_columns P) (raw_clock R))).
Proof.
  intros Hargs Huniq HR Hk Hshare.
  pose proof (only_link args before after P R Hargs Huniq HR Hk Hshare) as Hl.
  unfold contribution, merge. cbn [flat_map]. rewrite app_nil_r.
  change (filter (fun b : pyval * pyval => pyval_eqb (r_eventid (drop_columns P)) (fst b))
                 (restructure_dataframe (map drop_columns args)))
    with (filter (fun l : pyval * pyval => pyval_eqb (raw_r_eventid P) (fst l))
                 (restructure_dataframe (map drop_columns args))).
  rewrite Hl. cbn [map flat_map snd]. now rewrite app_nil_r.
Qed.

(** C1, as stated, fails in two ways on batches with unique [eventid]s.
    A resolved problem whose host list is not one descriptor (here: empty)
    is dropped with the rows that have a missing value, so the output has
    no record for it; and two problems resolved by the same event are each
    joined with both copies of the link, so the output has two records for
    each. *)
Lemma correlation_not_exactly_one :
  (let dropped :=
     [ mk_event (PInt 1) (PInt 1000) (PInt 2) (PStr "2") (HList []) (PStr "CPU high");
       mk_event (PInt 2) (PInt 1500) (PInt 0) (PStr "2") (HList []) (PStr "CPU high");
       mk_event (PInt 3) (PInt 2000) (PInt 4) (PStr "2") (one_host "10084" "HOSTA") (PStr "CPU high");
       mk_event (PInt 4) (PInt 2500) (PInt 0) (PStr "2") (HList []) (PStr "CPU high") ] in
   unique_eventids dropped /\
   exists out, clean_data dropped = Ok out /\
               List.length (filter (fun o : cleaned_row => eventid o =? 1) out) = 0%nat) /\
  (let shared :=
     [ mk_event (PInt 1) (PInt 1000) (PInt 3) (PStr "2") (one_host "10084" "HOSTA") (PStr "CPU high");
       mk_event (PInt 2) (PInt 1200) (PInt 3) (PStr "2") (one_host "10085" "HOSTB") (PStr "CPU high");
       mk_event (PInt 3) (PInt 1500) (PInt 0) (PStr "2") (HList []) (PStr "CPU high") ] in
   unique_eventids shared /\
   exists out, clean_data shared = Ok out /\
               List.length (filter (fun o : cleaned_row => eventid o =? 1) out) = 2%nat).
Proof.
  split; cbv zeta; (split; [|eexists; split; [vm_compute; reflexivity|reflexivity]]);
    unfold unique_eventids; vm_compute;
    repeat (constructor; [simpl; intuition discriminate|]); constructor.
Qed.

(** C1, amended: on a batch with unique [eventid] values on which the
    pipeline returns, a problem event [P] that has no missing field and a
    host list that yields a host name, whose [r_eventid] is the [eventid]
    of a record [R] of the batch and is the [r_eventid] of no other record,
    has exactly one record in the output, and this record carries the
    duration [R.clock - P.clock]. *)
Theorem correlation_exactly_one (args before after : list raw_event)
    (out : list cleaned_row) (P R : raw_event) :
  clean_data args = Ok out ->
  args = (before ++ P :: after)%list ->
  unique_eventids args ->
  In R args -> raw_r_eventid P = raw_eventid R ->
  (forall Q, In Q (before ++ after) -> raw_r_eventid Q <> raw_r_eventid P) ->
  complete P = true ->
  exists n pc rc,
    py_int (raw_eventid P) = Some n /\
    py_int (raw_clock P) = Some pc /\ py_int (raw_clock R) = Some rc /\
    to_datetime (rc - pc) = Ok (rc - pc) /\
    filter (fun o : cleaned_row => eventid o =? n) out = [cleaned_of P R n pc rc] /\
    rts_clock (cleaned_of P R n pc rc) = strftime_HMS (rc - pc).
Proof.
  intros Hrun Hargs Huniq HR Hk Hshare Hc.
  assert (HP : In P args) by (rewrite Hargs; apply in_or_app; right; now left).
  pose proof (output_by_contribution _ _ Hrun) as Hout.
  pose proof Hrun as Hok. apply clean_data_Ok in Hok. destruct Hok as [[Hok _] _].
  set (a := set_r_clock (drop_columns P) (raw_clock R) : adjusted_row).
  assert (Ha : In a (adjusted_frame (map drop_columns args))).
  { apply in_adjusted_frame. exists (drop_columns P), (drop_columns R).
    repeat split; try (now apply in_map). exact Hk. }
  rewrite Forall_forall in Hok. destruct (Hok a Ha) as [pc [rc [Hpc [Hrc Hs]]]].
  destruct (Hs Hc) as [H1 [H2 [n Hn]]].
  pose proof (wrap64_exact pc rc H1 (py_int_range _ _ Hrc) H2) as Hw.
  assert (Hrow : clean_row a = Some (cleaned_of P R n pc rc)).
  { apply clean_row_Some. exists pc, rc, n. rewrite Hw.
    split; [exact Hpc|]. split; [exact Hrc|]. split; [exact Hc|].
    split; [exact H1|]. split; [now rewrite <- Hw|]. split; [exact Hn|reflexivity]. }
  exists n, pc, rc. rewrite Hw in H2.
  repeat split; try assumption.
  - unfold to_datetime. now rewrite H2.
  - rewrite Hout, filter_flat_map.
    rewrite (flat_map_only _ _ _ _ _ Hargs).
    + rewrite (contribution_only args before after P R Hargs Huniq HR Hk Hshare).
      fold a. rewrite Hrow. simpl. now rewrite Z.eqb_refl.
    + intros Q HQ. apply filter_nil. intros o Ho.
      apply contribution_eventid in Ho.
      destruct (Z.eqb_spec (eventid o) n) as [E|]; [|reflexivity].
      exfalso. unfold unique_eventids in Huniq. rewrite Hargs in Huniq.
      apply (NoDup_map_others (fun e => py_int (raw_eventid e)) _ _ _ Huniq Q HQ).
      cbv beta. rewrite Ho, E. symmetry. exact Hn.
Qed.

Lemma correlation_exactly_one_witness :
  clean_data long_outage_batch = Ok [long_outage_record] /\
  long_outage_batch = ([] ++ long_outage_problem :: [long_outage_resolution])%list /\
  unique_eventids long_outage_batch /\
  In long_outage_resolution long_outage_batch /\
  raw_r_eventid long_outage_problem = raw_eventid long_outage_resolution /\
  (forall Q, In Q ([] ++ [long_outage_resolution]) ->
             raw_r_eventid Q <> raw_r_eventid long_outage_problem) /\
  complete long_outage_problem = true /\
  exists n pc rc,
    py_int (raw_eventid long_outage_problem) = Some n /\
    py_int (raw_clock long_outage_problem) = Some pc /\
    py_int (raw_clock long_outage_resolution) = Some rc /\
    to_datetime (rc - pc) = Ok (rc - pc) /\
    filter (fun o : cleaned_row => eventid o =? n) [long_outage_record]
      = [cleaned_of long_outage_problem long_outage_resolution n pc rc] /\
    rts_clock (cleaned_of long_outage_problem long_outage_resolution n pc rc)
      = strftime_HMS (rc - pc).
Proof.
  assert (H1 : clean_data long_outage_batch = Ok [long_outage_record]) by reflexivity.
  assert (H2 : long_outage_batch = ([] ++ long_outage_problem :: [long_outage_resolution])%list)
    by reflexivity.
  assert (H3 : unique_eventids long_outage_batch).
  { unfold unique_eventids. simpl.
    repeat (constructor; [simpl; intuition discriminate|]). constructor. }
  assert (H4 : In long_outage_resolution long_outage_batch) by (right; left; reflexivity).
  assert (H5 : raw_r_eventid long_outage_problem = raw_eventid long_outage_resolution)
    by reflexivity.
  assert (H6 : forall Q, In Q ([] ++ [long_outage_resolution]) ->
                         raw_r_eventid Q <> raw_r_eventid long_outage_problem).
  { intros Q [<-|[]]. discriminate. }
  assert (H7 : complete long_outage_problem = true) by reflexivity.
  do 7 (split; [assumption|]).
  apply (correlation_exactly_one long_outage_batch [] [long_outage_resolution]
           [long_outage_record] long_outage_problem long_outage_resolution
           H1 H2 H3 H4 H5 H6 H7).
Defined.

(** * Further properties of the pipeline *)

(** ** A run without a host column *)

Lemma host_series_adjustment_no_column (args : list resolved_row) :
  ~ Exists (fun r : resolved_row => has_host_column (hosts r)) args ->
  host_series_adjustment args = Err KeyError.
Proof.
  intro H. destruct (host_series_adjustment args) as [out|e] eqn:Hrun.
  - apply host_series_adjustment_Ok in Hrun. destruct Hrun as [Hex _]. contradiction.
  - unfold host_series_adjustment in Hrun.
    destruct (3 <? _)%nat; [discriminate|]. now symmetry.
Qed.



(** ** What every record of the output has *)

Lemma dict_get_In (d : list (string * string)) (k l : string) :
  dict_get d k = Some l -> In l (map snd d).
Proof.
  induction d as [|[k' v] d IH]; simpl; [discriminate|].
  destruct (String.eqb k k').
  - intro H. inversion H. now left.
  - intro H. right. now apply IH.
Qed.

(** X2: every record of the output has a host text and a name, none
    missing, and a severity that is one of the six labels or missing. *)
Theorem output_rows_complete (args : list raw_event) (out : list cleaned_row) (o : cleaned_row) :
  clean_data args = Ok out -> In o out ->
  (exists text, hosts o = PStr text) /\
  notna (name o) = true /\
  (severity o = PNone \/
   exists label, severity o = PStr label /\ In label (map snd severity_labels)).
Proof.
  intros Hrun Ho.
  destruct (clean_data_sound _ _ _ Hrun Ho)
    as [P [R [n [pc [rc [_ [_ [_ [Hc [_ [_ [_ [_ [_ ->]]]]]]]]]]]]]].
  unfold complete in Hc. rewrite !andb_true_iff in Hc.
  destruct Hc as [[[[_ _] _] Hh] Hn]. simpl.
  split; [|split; [exact Hn|]].
  - unfold host_column_3 in *.
    destruct (nth_error (host_pieces (raw_hosts P)) 3) as [s|]; [|discriminate].
    now eexists.
  - unfold series_map. destruct (raw_severity P) as [| |s]; try (now left).
    destruct (dict_get severity_labels s) as [l|] eqn:Hl; [|now left].
    right. exists l. split; [reflexivity|]. exact (dict_get_In severity_labels s l Hl).
Qed.

Lemma output_rows_complete_witness :
  clean_data long_outage_batch = Ok [long_outage_record] /\
  In long_outage_record [long_outage_record] /\
  (exists text, hosts long_outage_record = PStr text) /\
  notna (name long_outage_record) = true /\
  (severity long_outage_record = PNone \/
   exists label, severity long_outage_record = PStr label /\
                 In label (map snd severity_labels)).
Proof.
  assert (H1 : clean_data long_outage_batch = Ok [long_outage_record]) by reflexivity.
  assert (H2 : In long_outage_record [long_outage_record]) by (left; reflexivity).
  split; [exact H1|]. split; [exact H2|].
  exact (output_rows_complete long_outage_batch [long_outage_record] long_outage_record H1 H2).
Defined.

(** ** How many records a problem has *)
Lemma length_filter_map {A B : Type} (f : B -> bool) (g : A -> B) (l : list A) :
  List.length (filter f (map g l)) = List.length (filter (fun x => f (g x)) l).
Proof. now rewrite filter_map_swap, length_map. Qed.

Lemma links_count_aux (outer inner : list dropped_row) (k : pyval) :
  List.length
    (flat_map (fun i : dropped_row =>
                 filter (fun l : pyval * pyval => pyval_eqb k (fst l))
                        (map (fun j : dropped_row => (r_eventid i, clock j))
                             (filter (fun j : dropped_row => pyval_eqb (r_eventid i) (eventid j)) inner)))
              outer)
  = (List.length (filter (fun i : dropped_row => pyval_eqb k (r_eventid i)) outer)
     * List.length (filter (fun j : dropped_row => pyval_eqb k (eventid j)) inner))%nat.
Proof.
  induction outer as [|i outer IH]; simpl; [reflexivity|].
  rewrite length_app, IH, length_filter_map. cbn [fst].
  destruct (pyval_eqb k (r_eventid i)) eqn:E; simpl.
  - apply pyval_eqb_eq in E. subst k. f_equal.
    generalize (filter (fun j : dropped_row => pyval_eqb (r_eventid i) (eventid j)) inner) as l.
    intro l. induction l as [|a l IHl]; simpl; [reflexivity|now rewrite IHl].
  - generalize (filter (fun j : dropped_row => pyval_eqb (r_eventid i) (eventid j)) inner) as l.
    intro l. induction l as [|a l IHl]; simpl; [reflexivity|exact IHl].
Qed.

Lemma links_count (frame : list dropped_row) (k : pyval) :
  List.length (filter (fun l : pyval * pyval => pyval_eqb k (fst l)) (restructure_dataframe frame))
  = (List.length (filter (fun i : dropped_row => pyval_eqb k (r_eventid i)) frame)
     * List.length (filter (fun j : dropped_row => pyval_eqb k (eventid j)) frame))%nat.
Proof.
  rewrite restructure_dataframe_rows, filter_flat_map. apply links_count_aux.
Qed.

Lemma length_flat_map_olist {A B : Type} (g : A -> option B) (l : list A) :
  (forall a, In a l -> g a <> None) ->
  List.length (flat_map (fun a => olist (g a)) l) = List.length l.
Proof.
  induction l as [|a l IH]; simpl; intro H; [reflexivity|].
  rewrite length_app, IH by (intros x Hx; apply H; now right).
  destruct (g a) eqn:E; [reflexivity|]. exfalso. apply (H a); [now left|exact E].
Qed.



(** The two problems that share a resolution event have two records
    each. *)
Example shared_resolution_doubles :
  sharing shared_resolution_batch (raw_r_eventid shared_problem) = 2%nat /\
  carrying shared_resolution_batch (raw_r_eventid shared_problem) = 1%nat /\
  exists out,
    clean_data shared_resolution_batch = Ok out /\
    List.length (filter (fun o : cleaned_row => eventid o =? 1) out) = 2%nat /\
    List.length (filter (fun o : cleaned_row => eventid o =? 2) out) = 2%nat /\
    List.length out = 4%nat.
Proof.
  split; [reflexivity|]. split; [reflexivity|].
  eexists. split; [vm_compute; reflexivity|]. repeat split.
Qed.

(** ** Events without a usable host text *)



(** ** Events with two hosts *)

Lemma str_hosts_two_hosts (hostid1 host1 hostid2 host2 : string) :
  plain hostid1 = true -> plain host1 = true ->
  plain hostid2 = true -> plain host2 = true ->
  str_hosts (two_hosts hostid1 host1 hostid2 host2)
  = "[{'hostid': '" ++ hostid1 ++ "', 'host': '" ++ host1
    ++ "'}, {'hostid': '" ++ hostid2 ++ "', 'host': '" ++ host2 ++ "'}]".
Proof.
  intros H1 H2 H3 H4. unfold str_hosts, two_hosts, repr_dict, repr_item.
  cbn [map PyStr.join fst snd repr_val].
  rewrite (repr_plain hostid1 H1), (repr_plain host1 H2),
          (repr_plain hostid2 H3), (repr_plain host2 H4).
  change (PyStr.repr "hostid") with "'hostid'".
  change (PyStr.repr "host") with "'host'".
  unfold PyStr.squote. repeat (rewrite ?append_assoc; cbn [append]). reflexivity.
Qed.

Lemma upper_nonempty (s : string) : s <> EmptyString -> PyStr.upper s <> EmptyString.
Proof. destruct s; [contradiction|discriminate]. Qed.

Lemma plain_upper_no_squote (s : string) :
  plain s = true ->
  all_chars (fun c => negb (PyStr.mem c "''")) (PyStr.upper s) = true.
Proof.
  intro H.
  assert (Hq : all_chars (fun c => negb (Ascii.eqb c PyStr.squote)) (PyStr.upper s) = true).
  { rewrite upper_all_chars by (apply Nat.ltb_lt; reflexivity).
    revert H. apply all_chars_impl. intros c Hc.
    unfold plain_char in Hc. rewrite !andb_true_iff in Hc. tauto. }
  revert Hq. apply all_chars_impl. intros c Hc. simpl.
  apply negb_true_iff in Hc. unfold PyStr.squote in Hc. now rewrite Hc.
Qed.

Lemma host_column_3_two_hosts (hostid1 host1 hostid2 host2 : string) :
  plain hostid1 = true -> no_space hostid1 = true ->
  plain host1 = true -> host1 <> EmptyString ->
  plain hostid2 = true -> plain host2 = true -> host2 <> EmptyString ->
  host_column_3 (host_pieces (two_hosts hostid1 host1 hostid2 host2))
  = PStr (two_hosts_text host1 hostid2 host2).
Proof.
  intros Hid1 Hsp Hn1 Hne1 Hid2 Hn2 Hne2. unfold host_pieces.
  rewrite (str_hosts_two_hosts _ _ _ _ Hid1 Hn1 Hid2 Hn2).
  rewrite !upper_app.
  change (PyStr.upper "[{'hostid': '") with "[{'HOSTID': '".
  change (PyStr.upper "', 'host': '") with "', 'HOST': '".
  change (PyStr.upper "'}, {'hostid': '") with "'}, {'HOSTID': '".
  change (PyStr.upper "'}]") with "'}]".
  set (ID1 := PyStr.upper hostid1). set (NM1 := PyStr.upper host1).
  set (ID2 := PyStr.upper hostid2). set (NM2 := PyStr.upper host2).
  assert (HID : no_space ID1 = true).
  { unfold no_space, ID1. rewrite upper_all_chars; [exact Hsp|apply Nat.ltb_lt; reflexivity]. }
  remember ("'}, {'HOSTID': '" ++ ID2 ++ "', 'HOST': '" ++ NM2) as tail eqn:Htail.
  replace ("[{'HOSTID': '" ++ ID1 ++ "', 'HOST': '" ++ NM1
           ++ "'}, {'HOSTID': '" ++ ID2 ++ "', 'HOST': '" ++ NM2 ++ "'}]")
    with ("[{'HOSTID': '" ++ ID1 ++ "', 'HOST': '" ++ NM1 ++ tail ++ "'}]")
    by (rewrite Htail; repeat (rewrite ?append_assoc; cbn [append]); reflexivity).
  (* strip "[]", then strip "{}" *)
  unfold PyStr.strip at 2.
  change (PyStr.lstrip "[]" ("[{'HOSTID': '" ++ ID1 ++ "', 'HOST': '" ++ NM1 ++ tail ++ "'}]"))
    with ("{'HOSTID': '" ++ ID1 ++ "', 'HOST': '" ++ NM1 ++ tail ++ "'}]").
  replace ("{'HOSTID': '" ++ ID1 ++ "', 'HOST': '" ++ NM1 ++ tail ++ "'}]")
    with (("{'HOSTID': '" ++ ID1 ++ "', 'HOST': '" ++ NM1 ++ tail) ++ "'}]")
    by (now rewrite !append_assoc).
  rewrite rstrip_app by (vm_compute; discriminate).
  change (PyStr.rstrip "[]" "'}]") with "'}".
  unfold PyStr.strip.
  rewrite !append_assoc.
  change (PyStr.lstrip "{}" ("{'HOSTID': '" ++ ID1 ++ "', 'HOST': '" ++ NM1 ++ tail ++ "'}"))
    with ("'HOSTID': '" ++ ID1 ++ "', 'HOST': '" ++ NM1 ++ tail ++ "'}").
  replace ("'HOSTID': '" ++ ID1 ++ "', 'HOST': '" ++ NM1 ++ tail ++ "'}")
    with (("'HOSTID': '" ++ ID1 ++ "', 'HOST': '" ++ NM1 ++ tail) ++ "'}")
    by (now rewrite !append_assoc).
  rewrite rstrip_app by (vm_compute; discriminate).
  change (PyStr.rstrip "{}" "'}") with "'".
  rewrite !append_assoc.
  (* split(" ", 3) *)
  cbn [PyStr.split].
  change ("'HOSTID': '" ++ ID1 ++ "', 'HOST': '" ++ NM1 ++ tail ++ "'")
    with ("'HOSTID':" ++ String PyStr.space ("'" ++ ID1 ++ "', 'HOST': '" ++ NM1 ++ tail ++ "'")).
  rewrite cut_app by reflexivity.
  replace ("'" ++ ID1 ++ "', 'HOST': '" ++ NM1 ++ tail ++ "'")
    with (("'" ++ ID1 ++ "',") ++ String PyStr.space ("'HOST': '" ++ NM1 ++ tail ++ "'"))
    by (now rewrite !append_assoc).
  rewrite cut_app
    by (unfold no_space in *; rewrite !all_chars_app, HID; reflexivity).
  change ("'HOST': '" ++ NM1 ++ tail ++ "'")
    with ("'HOST':" ++ String PyStr.space ("'" ++ NM1 ++ tail ++ "'")).
  rewrite cut_app by reflexivity.
  unfold host_column_3. cbn [nth_error]. f_equal.
  (* strip("''") *)
  unfold two_hosts_text. fold NM1 ID2 NM2.
  unfold PyStr.strip.
  change (PyStr.lstrip "''" ("'" ++ NM1 ++ tail ++ "'"))
    with (PyStr.lstrip "''" (NM1 ++ tail ++ "'")).
  rewrite lstrip_clean
    by (first [apply plain_upper_no_squote; exact Hn1 | apply upper_nonempty; exact Hne1]).
  rewrite Htail.
  replace (NM1 ++ ("'}, {'HOSTID': '" ++ ID2 ++ "', 'HOST': '" ++ NM2) ++ "'")
    with ((NM1 ++ "'}, {'HOSTID': '" ++ ID2 ++ "', 'HOST': '") ++ (NM2 ++ "'"))
    by (repeat (rewrite ?append_assoc; cbn [append]); reflexivity).
  assert (Hlast : PyStr.rstrip "''" (NM2 ++ "'") = NM2).
  { rewrite rstrip_clean by (apply plain_upper_no_squote; exact Hn2).
    change (PyStr.rstrip "''" "'") with EmptyString.
    clear. induction NM2 as [|d s IH]; simpl; [reflexivity|now rewrite IH]. }
  rewrite rstrip_app.
  - rewrite Hlast. repeat (rewrite ?append_assoc; cbn [append]). reflexivity.
  - rewrite Hlast. now apply upper_nonempty.
Qed.


(** X6: a resolved problem with two hosts is not dropped: its record is in
    the output, and its host cell holds the first name followed by the
    text of the list up to the second name. *)
Theorem two_hosts_mangled (args : list raw_event) (out : list cleaned_row)
    (P R : raw_event) (hostid1 host1 hostid2 host2 : string) :
  clean_data args = Ok out ->
  In P args -> In R args -> raw_r_eventid P = raw_eventid R ->
  raw_hosts P = two_hosts hostid1 host1 hostid2 host2 ->
  plain hostid1 = true -> no_space hostid1 = true ->
  plain host1 = true -> host1 <> EmptyString ->
  plain hostid2 = true -> plain host2 = true -> host2 <> EmptyString ->
  notna (raw_eventid P) && notna (raw_r_eventid P)
    && notna (raw_severity P) && notna (raw_name P) = true ->
  exists n pc rc,
    py_int (raw_eventid P) = Some n /\
    In (cleaned_of P R n pc rc) out /\
    hosts (cleaned_of P R n pc rc) = PStr (two_hosts_text host1 hostid2 host2).
Proof.
  intros Hrun HP HR Hk Hh Hid1 Hsp Hn1 Hne1 Hid2 Hn2 Hne2 Hna.
  pose proof (host_column_3_two_hosts _ _ _ _ Hid1 Hsp Hn1 Hne1 Hid2 Hn2 Hne2) as Hcol.
  rewrite <- Hh in Hcol.
  assert (Hc : complete P = true).
  { unfold complete. rewrite Hcol. rewrite !andb_true_iff in Hna.
    destruct Hna as [[[H1 H2] H4] H5]. now rewrite H1, H2, H4, H5. }
  destruct (clean_data_complete _ _ P R Hrun HP HR Hk Hc)
    as [n [pc [rc [Hn [_ [_ [_ [_ Hin]]]]]]]].
  exists n, pc, rc. split; [exact Hn|]. split; [exact Hin|]. exact Hcol.
Qed.

Lemma two_hosts_mangled_witness :
  clean_data cluster_batch = Ok [cluster_record] /\
  In cluster_problem cluster_batch /\ In cluster_resolution cluster_batch /\
  raw_r_eventid cluster_problem = raw_eventid cluster_resolution /\
  raw_hosts cluster_problem = two_hosts "10084" "node a" "10085" "node b" /\
  plain "10084" = true /\ no_space "10084" = true /\
  plain "node a" = true /\ "node a" <> EmptyString /\
  plain "10085" = true /\ plain "node b" = true /\ "node b" <> EmptyString /\
  notna (raw_eventid cluster_problem) && notna (raw_r_eventid cluster_problem)
    && notna (raw_severity cluster_problem) && notna (raw_name cluster_problem) = true /\
  exists n pc rc,
    py_int (raw_eventid cluster_problem) = Some n /\
    In (cleaned_of cluster_problem cluster_resolution n pc rc) [cluster_record] /\
    hosts (cleaned_of cluster_problem cluster_resolution n pc rc)
    = PStr (two_hosts_text "node a" "10085" "node b").
Proof.
  assert (H1 : clean_data cluster_batch = Ok [cluster_record]) by (vm_compute; reflexivity).
  assert (H2 : In cluster_problem cluster_batch) by (left; reflexivity).
  assert (H3 : In cluster_resolution cluster_batch) by (right; left; reflexivity).
  assert (H4 : raw_r_eventid cluster_problem = raw_eventid cluster_resolution) by reflexivity.
  assert (H5 : raw_hosts cluster_problem = two_hosts "10084" "node a" "10085" "node b")
    by reflexivity.
  assert (H6 : plain "10084" = true) by reflexivity.
  assert (H7 : no_space "10084" = true) by reflexivity.
  assert (H8 : plain "node a" = true) by reflexivity.
  assert (H9 : "node a" <> EmptyString) by discriminate.
  assert (H10 : plain "10085" = true) by reflexivity.
  assert (H11 : plain "node b" = true) by reflexivity.
  assert (H12 : "node b" <> EmptyString) by discriminate.
  assert (H13 : notna (raw_eventid cluster_problem) && notna (raw_r_eventid cluster_problem)
                  && notna (raw_severity cluster_problem) && notna (raw_name cluster_problem) = true)
    by reflexivity.
  do 13 (split; [assumption|]).
  exact (two_hosts_mangled cluster_batch [cluster_record] cluster_problem cluster_resolution
           "10084" "node a" "10085" "node b" H1 H2 H3 H4 H5 H6 H7 H8 H9 H10 H11 H12 H13).
Defined.


(** ** Counting values *)

Section ValueCountsFacts.
Context {K : Type} (cmp : K -> K -> comparison).
Hypothesis cmp_eq : forall a b, cmp a b = Eq <-> a = b.
Hypothesis cmp_antisym : forall a b, cmp b a = CompOpp (cmp a b).
Hypothesis cmp_trans : forall a b c, cmp a b = Lt -> cmp b c = Lt -> cmp a c = Lt.

Lemma count_key_total (k : K) (counts : list (K * nat)) :
  total (count_key cmp k counts) = S (total counts).
Proof.
  unfold total. induction counts as [|[k' n] rest IH]; simpl; [reflexivity|].
  destruct (cmp k k'); simpl; [reflexivity|reflexivity|]. rewrite IH. lia.
Qed.

Lemma count_key_head (k : K) (counts : list (K * nat)) (a : K) :
  cmp a k = Lt -> HdRel (fun x y => cmp x y = Lt) a (map fst counts) ->
  HdRel (fun x y => cmp x y = Lt) a (map fst (count_key cmp k counts)).
Proof.
  intros Hak Hhd. destruct counts as [|[k' n] rest]; simpl.
  - now constructor.
  - inversion Hhd; subst. destruct (cmp k k'); simpl; now constructor.
Qed.

Lemma count_key_ascending (k : K) (counts : list (K * nat)) :
  ascending cmp (map fst counts) -> ascending cmp (map fst (count_key cmp k counts)).
Proof.
  unfold ascending. induction counts as [|[k' n] rest IH]; simpl; intro H.
  - repeat constructor.
  - inversion H as [|? ? Hs Hhd]; subst.
    destruct (cmp k k') eqn:E; simpl.
    + now constructor.
    + constructor; [exact H|]. now constructor.
    + constructor; [now apply IH|].
      apply count_key_head; [|exact Hhd].
      rewrite cmp_antisym, E. reflexivity.
Qed.

Lemma value_counts_total (values : list K) :
  total (value_counts_sort_index cmp values) = List.length values.
Proof.
  induction values as [|v values IH]; simpl; [reflexivity|].
  now rewrite count_key_total, IH.
Qed.

Lemma value_counts_ascending (values : list K) :
  ascending cmp (map fst (value_counts_sort_index cmp values)).
Proof.
  induction values as [|v values IH]; simpl; [constructor|].
  now apply count_key_ascending.
Qed.

Lemma cmp_refl (a : K) : cmp a a = Eq.
Proof. now apply cmp_eq. Qed.

Lemma count_of_below (k : K) (counts : list (K * nat)) :
  ascending cmp (map fst counts) ->
  HdRel (fun x y => cmp x y = Lt) k (map fst counts) ->
  count_of cmp k counts = 0%nat.
Proof.
  unfold ascending. induction counts as [|[k' n] rest IH]; simpl; intros Hs Hhd; [reflexivity|].
  inversion Hs as [|? ? Hs' Hhd']; subst. inversion Hhd as [|? ? Hlt]; subst.
  rewrite Hlt. apply IH; [exact Hs'|].
  destruct rest as [|[k'' m] rest']; simpl in *; constructor.
  inversion Hhd' as [|? ? Hlt']; subst. now apply (cmp_trans _ k').
Qed.

Lemma count_key_count_of (k v : K) (counts : list (K * nat)) :
  ascending cmp (map fst counts) ->
  count_of cmp k (count_key cmp v counts)
  = ((match cmp k v with Eq => 1 | _ => 0 end) + count_of cmp k counts)%nat.
Proof.
  unfold ascending. induction counts as [|[k' n] rest IH]; simpl; intro Hs.
  - destruct (cmp k v); reflexivity.
  - inversion Hs as [|? ? Hs' Hhd]; subst.
    destruct (cmp v k') eqn:E; simpl.
    + apply cmp_eq in E. subst k'. destruct (cmp k v); lia.
    + destruct (cmp k v) eqn:Ekv; try reflexivity.
      apply cmp_eq in Ekv. subst v. rewrite E.
      rewrite (count_of_below k rest); [reflexivity|exact Hs'|].
      destruct rest as [|[k'' m] rest']; simpl in *; constructor.
      inversion Hhd as [|? ? Hlt']; subst. now apply (cmp_trans _ k').
    + destruct (cmp k k') eqn:Ekk.
      * apply cmp_eq in Ekk. subst k'.
        destruct (cmp k v) eqn:Ekv; try reflexivity.
        apply cmp_eq in Ekv. subst v. rewrite cmp_refl in E. discriminate.
      * now apply IH.
      * now apply IH.
Qed.

(** The count that the series holds for a value is the number of its
    occurrences. *)
Lemma value_counts_count_of (k : K) (values : list K) :
  count_of cmp k (value_counts_sort_index cmp values) = occurrences cmp k values.
Proof.
  unfold occurrences. induction values as [|v values IH]; simpl; [reflexivity|].
  rewrite count_key_count_of by apply value_counts_ascending.
  rewrite IH. destruct (cmp k v); reflexivity.
Qed.

Lemma cmp_lt_gt (a b : K) : cmp a b = Lt -> cmp b a = Gt.
Proof. intro H. now rewrite cmp_antisym, H. Qed.

(** An entry of an ascending series of counts is the count held for its
    value. *)
Lemma count_of_entry (k : K) (n : nat) (counts : list (K * nat)) :
  ascending cmp (map fst counts) -> In (k, n) counts -> count_of cmp k counts = n.
Proof.
  intros Hs. apply Sorted_StronglySorted in Hs; [|intros a b c; apply cmp_trans].
  induction counts as [|[k' m] rest IH]; simpl; intro Hin; [contradiction|].
  simpl in Hs. inversion Hs as [|? ? Hs' Hall]; subst.
  destruct Hin as [Heq|Hin].
  - inversion Heq; subst. now rewrite cmp_refl.
  - rewrite Forall_forall in Hall.
    assert (Hlt : cmp k' k = Lt) by (apply Hall; apply (in_map fst _ _ Hin)).
    rewrite (cmp_lt_gt _ _ Hlt). now apply IH.
Qed.

Lemma count_key_positive (k : K) (counts : list (K * nat)) :
  Forall (fun n => (0 < n)%nat) (map snd counts) ->
  Forall (fun n => (0 < n)%nat) (map snd (count_key cmp k counts)).
Proof.
  induction counts as [|[k' n] rest IH]; simpl; intro H.
  - repeat constructor.
  - inversion H as [|? ? Hn Hrest]; subst. destruct (cmp k k'); simpl.
    + constructor; [lia|exact Hrest].
    + constructor; [lia|exact H].
    + constructor; [exact Hn|now apply IH].
Qed.

Lemma value_counts_positive (values : list K) :
  Forall (fun n => (0 < n)%nat) (map snd (value_counts_sort_index cmp values)).
Proof.
  induction values as [|v values IH]; simpl; [constructor|].
  now apply count_key_positive.
Qed.

(** What [value_counts().sort_index()] returns: the values in strictly
    ascending order, each once and with the number of its occurrences, which
    is positive; the numbers add up to the length of the column. *)
Lemma value_counts_sort_index_spec (values : list K) :
  let series := value_counts_sort_index cmp values in
  ascending cmp (map fst series) /\
  Forall (fun n => (0 < n)%nat) (map snd series) /\
  (forall k n, In (k, n) series -> n = occurrences cmp k values) /\
  total series = List.length values.
Proof.
  cbv zeta. split; [apply value_counts_ascending|].
  split; [apply value_counts_positive|].
  split; [|apply value_counts_total].
  intros k n Hin. rewrite <- value_counts_count_of. symmetry.
  apply count_of_entry; [apply value_counts_ascending|exact Hin].
Qed.

End ValueCountsFacts.


(** ** Reading a display clock back *)

Lemma digit_parses (n : Z) :
  0 <= n <= 9 -> PyStr.is_digit (digit n) = true /\ PyStr.digit_val (digit n) = n.
Proof.
  intro H. rewrite <- (Z2Nat.id n) by lia.
  assert (Hm : (Z.to_nat n < 10)%nat) by lia.
  revert Hm. generalize (Z.to_nat n) as m. intro m.
  do 10 (destruct m as [|m]; [intros _; split; reflexivity|]).
  intro Hm. exfalso. lia.
Qed.

Lemma two_digits_pad (n : Z) :
  0 <= n < 100 -> two_digits (digit (n / 10)) (digit (n mod 10)) = Some n.
Proof.
  intro H. unfold two_digits.
  destruct (digit_parses (n / 10)) as [H1 H2]; [Z.div_mod_to_equations; lia|].
  destruct (digit_parses (n mod 10)) as [H3 H4]; [Z.div_mod_to_equations; lia|].
  rewrite H1, H2, H3, H4. cbn [andb]. f_equal. Z.div_mod_to_equations. lia.
Qed.

Lemma parse_fields_rendered (y mo d h mi s : Z) :
  0 <= y < 10000 -> 0 <= mo < 100 -> 0 <= d < 100 ->
  0 <= h < 100 -> 0 <= mi < 100 -> 0 <= s < 100 ->
  parse_fields (pad2 mo ++ "/" ++ pad2 d ++ "/" ++ pad4 y ++ " "
                ++ pad2 h ++ ":" ++ pad2 mi ++ ":" ++ pad2 s)
  = Some (y, mo, d, h, mi, s).
Proof.
  intros Hy Hmo Hd Hh Hmi Hs.
  unfold pad4, pad2. cbn [append]. unfold parse_fields, four_digits.
  rewrite (two_digits_pad mo Hmo), (two_digits_pad d Hd), (two_digits_pad h Hh),
          (two_digits_pad mi Hmi), (two_digits_pad s Hs).
  rewrite (two_digits_pad (y / 100)) by (Z.div_mod_to_equations; lia).
  rewrite (two_digits_pad (y mod 100)) by (Z.div_mod_to_equations; lia).
  do 2 f_equal. f_equal. f_equal. f_equal. f_equal. Z.div_mod_to_equations. lia.
Qed.

Lemma days_before_month_bounds (y m : Z) :
  1 <= m <= 12 -> 0 <= days_before_month y m <= 335.
Proof.
  intro H. rewrite days_before_month_table by exact H.
  destruct (m <? 3) eqn:E.
  - apply Z.ltb_lt in E. lia.
  - apply Z.ltb_ge in E. destruct (is_leap y); Z.div_mod_to_equations; lia.
Qed.

Lemma days_in_month_bounds (y m : Z) : 28 <= days_in_month y m <= 31.
Proof.
  unfold days_in_month.
  destruct (m =? 2); [destruct (is_leap y); lia|].
  destruct ((m =? 4) || (m =? 6) || (m =? 9) || (m =? 11)); lia.
Qed.

(** The year of a timestamp in range has four digits. *)
Lemma utc_fields_year (t y mo d h mi s : Z) :
  in_timestamp_range t = true -> utc_fields t y mo d h mi s -> 1677 <= y <= 2262.
Proof.
  intros Ht [Hmo [Hd [Hh [Hmi [Hs Heq]]]]].
  apply in_timestamp_range_spec in Ht. unfold timestamp_min, timestamp_max in Ht.
  pose proof (days_before_month_bounds y mo Hmo) as Hdbm.
  pose proof (days_in_month_bounds y mo) as Hdim.
  unfold utc_seconds, days_since_epoch, days_before_year in Heq.
  set (dbm := days_before_month y mo) in *. clearbody dbm.
  set (dim := days_in_month y mo) in *. clearbody dim.
  Z.div_mod_to_equations. lia.
Qed.

Lemma parse_rendered_clock (t : Z) :
  in_timestamp_range t = true -> parse_clock (strftime_mdY_HMS t) = Ok t.
Proof.
  intro Ht.
  destruct (strftime_mdY_HMS_utc t) as [y [mo [d [h [mi [s [Hf Hstr]]]]]]].
  pose proof (utc_fields_year _ _ _ _ _ _ _ Ht Hf) as Hy.
  pose proof (days_in_month_bounds y mo) as Hdim.
  destruct Hf as [Hmo [Hd [Hh [Hmi [Hs Heq]]]]].
  unfold parse_clock. rewrite Hstr.
  rewrite parse_fields_rendered by lia.
  assert (Hv : valid_fields y mo d h mi s = true).
  { unfold valid_fields. rewrite !andb_true_iff, !Z.leb_le, !Z.ltb_lt. lia. }
  rewrite Hv, Heq. unfold to_datetime. now rewrite Ht.
Qed.

(** X7: reading back the column [clock] that [correct_datatypes] wrote
    gives the column [clock] it was given: no reading raises, and every
    timestamp comes back to the second. *)
Theorem clock_column_round_trip (rows : list adjusted_dataframe_row) (out : list cleaned_row) :
  correct_datatypes rows = Ok out ->
  mapM (fun r : cleaned_row => parse_clock (clock r)) out
  = Ok (map (fun h : adjusted_dataframe_row => clock h) rows).
Proof.
  intro Hrun. apply correct_datatypes_Ok in Hrun. apply mapM_Ok.
  induction Hrun as [|h o rows out Ho _ IH]; simpl; constructor; [|exact IH].
  apply finish_row_Some in Ho. destruct Ho as [n [Hc [_ [_ ->]]]]. simpl.
  now apply parse_rendered_clock.
Qed.

Lemma clock_column_round_trip_witness :
  correct_datatypes
    [Build_row (PStr "7") 1000 tt (PStr "4") (PStr "ZABBIX SERVER") (PStr "Link down") tt 90000]
  = Ok [long_outage_record] /\
  mapM (fun r : cleaned_row => parse_clock (clock r)) [long_outage_record]
  = Ok (map (fun h : adjusted_dataframe_row => clock h)
          [Build_row (PStr "7") 1000 tt (PStr "4") (PStr "ZABBIX SERVER") (PStr "Link down")
             tt 90000]).
Proof.
  assert (H : correct_datatypes
    [Build_row (PStr "7") 1000 tt (PStr "4") (PStr "ZABBIX SERVER") (PStr "Link down") tt 90000]
    = Ok [long_outage_record]) by reflexivity.
  split; [exact H|]. exact (clock_column_round_trip _ _ H).
Defined.


(** ** The charts of a report *)

Lemma string_compare_eq (a b : string) : String.compare a b = Eq <-> a = b.
Proof. exact (OrderedTypeEx.String_as_OT.cmp_eq a b). Qed.

Lemma string_compare_antisym (a b : string) :
  String.compare b a = CompOpp (String.compare a b).
Proof. exact (String.compare_antisym b a). Qed.

Lemma string_compare_trans (a b c : string) :
  String.compare a b = Lt -> String.compare b c = Lt -> String.compare a c = Lt.
Proof.
  intros H1 H2. apply OrderedTypeEx.String_as_OT.cmp_lt.
  apply OrderedTypeEx.String_as_OT.cmp_lt in H1, H2.
  exact (OrderedTypeEx.String_as_OT.lt_trans _ _ _ H1 H2).
Qed.

Lemma Z_compare_antisym (a b : Z) : Z.compare b a = CompOpp (Z.compare a b).
Proof. exact (Z.compare_antisym a b). Qed.

Lemma Z_compare_trans (a b c : Z) :
  Z.compare a b = Lt -> Z.compare b c = Lt -> Z.compare a c = Lt.
Proof. rewrite !Z.compare_lt_iff. lia. Qed.

Lemma combine_fst_snd {A B : Type} (l : list (A * B)) :
  combine (map fst l) (map snd l) = l.
Proof. induction l as [|[a b] l IH]; simpl; [reflexivity|]. now rewrite IH. Qed.

Lemma filter_length_Forall2 {A B : Type} (R : A -> B -> Prop) (p : A -> bool) (q : B -> bool)
    (l : list A) (l' : list B) :
  (forall a b, R a b -> p a = q b) -> Forall2 R l l' ->
  List.length (filter p l) = List.length (filter q l').
Proof.
  intros Hpq H. induction H as [|a b l l' Hab _ IH]; simpl; [reflexivity|].
  rewrite (Hpq a b Hab). destruct (q b); simpl; now rewrite IH.
Qed.

Lemma occurrences_map {A K : Type} (cmp : K -> K -> comparison) (f : A -> K) (k : K)
    (l : list A) :
  occurrences cmp k (map f l)
  = List.length (filter (fun a => match cmp k (f a) with Eq => true | _ => false end) l).
Proof.
  unfold occurrences. induction l as [|a l IH]; simpl; [reflexivity|].
  destruct (cmp k (f a)); simpl; now rewrite IH.
Qed.

Lemma report_clocks (args : list raw_event) (out : list cleaned_row) :
  clean_data args = Ok out -> exists clocks, Forall2 display_clock_of out clocks.
Proof.
  intro Hrun.
  assert (H : Forall (fun o => exists t, display_clock_of o t) out).
  { apply Forall_forall. intros o Ho.
    destruct (clean_data_sound _ _ _ Hrun Ho)
      as [P [R [n [pc [rc [_ [_ [_ [_ [_ [_ [_ [Hpc [_ ->]]]]]]]]]]]]]].
    exists pc. split; [exact Hpc|reflexivity]. }
  clear Hrun. induction H as [|o out [t Ht] _ [clocks IH]].
  - exists []. constructor.
  - exists (t :: clocks). now constructor.
Qed.

Lemma parse_display_clocks (rows : list cleaned_row) (clocks : list Z) :
  Forall2 display_clock_of rows clocks ->
  mapM (fun r : cleaned_row => parse_clock (clock r)) rows = Ok clocks.
Proof.
  intro H. apply mapM_Ok.
  induction H as [|o t rows clocks [Ht Ho] _ IH]; constructor; [|exact IH].
  rewrite Ho. now apply parse_rendered_clock.
Qed.

Lemma strftime_HM_substring (t : Z) :
  strftime_HM t = substring 11 5 (strftime_mdY_HMS t).
Proof.
  unfold strftime_HM, strftime_mdY_HMS, strftime_HMS.
  destruct (civil_from_days (day_number t)) as [[y m] d]. reflexivity.
Qed.

Lemma normalize_midnight (t : Z) : normalize t mod 86400 = 0.
Proof. unfold normalize, second_of_day. Z.div_mod_to_equations. lia. Qed.

Lemma normalize_day (d t : Z) :
  d mod 86400 = 0 -> (normalize t = d <-> d <= t < d + 86400).
Proof. unfold normalize, second_of_day. intro H. Z.div_mod_to_equations. lia. Qed.

Lemma occurrences_In {K : Type} (cmp : K -> K -> comparison) (k : K) (values : list K) :
  (forall a b, cmp a b = Eq -> a = b) ->
  (0 < occurrences cmp k values)%nat -> In k values.
Proof.
  intros Heq. unfold occurrences.
  induction values as [|v values IH]; simpl; [lia|].
  destruct (cmp k v) eqn:E; simpl; intro H.
  - left. symmetry. now apply Heq.
  - right. now apply IH.
  - right. now apply IH.
Qed.

(** X8: on a report that [clean_data] returned, [time_and_frequency] does
    not raise; its minutes are in strictly ascending order, each with the
    number of records whose display clock carries that minute at positions
    11 to 15, which is at least one; the counts add up to the number of
    records. *)
Theorem time_and_frequency_of_report (args : list raw_event) (out : list cleaned_row) :
  clean_data args = Ok out ->
  exists keys counts,
    time_and_frequency out = Ok (keys, counts) /\
    ascending String.compare keys /\
    (forall k n, In (k, n) (combine keys counts) ->
       (0 < n)%nat /\
       n = List.length (filter (fun o : cleaned_row => String.eqb k (substring 11 5 (clock o))) out)) /\
    list_sum counts = List.length out.
Proof.
  intro Hrun. destruct (report_clocks _ _ Hrun) as [clocks Hc].
  pose proof (value_counts_sort_index_spec String.compare string_compare_eq
                string_compare_antisym string_compare_trans (map strftime_HM clocks))
    as [Hasc [Hpos [Hocc Htot]]].
  eexists _, _. split.
  { unfold time_and_frequency. rewrite (parse_display_clocks _ _ Hc). reflexivity. }
  split; [exact Hasc|]. split.
  - intros k n Hin. rewrite combine_fst_snd in Hin. split.
    + rewrite Forall_forall in Hpos. apply Hpos.
      apply in_map_iff. exists (k, n). now split.
    + rewrite (Hocc k n Hin), occurrences_map. symmetry.
      apply (filter_length_Forall2 display_clock_of); [|exact Hc].
      intros o t [_ Ho]. rewrite Ho, <- strftime_HM_substring.
      destruct (String.compare k (strftime_HM t)) eqn:E.
      * apply string_compare_eq in E. subst k. apply String.eqb_refl.
      * apply String.eqb_neq. intros ->.
        rewrite (proj2 (string_compare_eq _ _) eq_refl) in E. discriminate.
      * apply String.eqb_neq. intros ->.
        rewrite (proj2 (string_compare_eq _ _) eq_refl) in E. discriminate.
  - unfold total in Htot. rewrite Htot, length_map. symmetry.
    exact (Forall2_length Hc).
Qed.

Lemma time_and_frequency_of_report_witness :
  clean_data same_second_batch = Ok [same_second_record_1; same_second_record_2] /\
  exists keys counts,
    time_and_frequency [same_second_record_1; same_second_record_2] = Ok (keys, counts) /\
    ascending String.compare keys /\
    (forall k n, In (k, n) (combine keys counts) ->
       (0 < n)%nat /\
       n = List.length (filter (fun o : cleaned_row => String.eqb k (substring 11 5 (clock o)))
                               [same_second_record_1; same_second_record_2])) /\
    list_sum counts = List.length [same_second_record_1; same_second_record_2].
Proof.
  assert (H1 : clean_data same_second_batch = Ok [same_second_record_1; same_second_record_2])
    by (vm_compute; reflexivity).
  split; [exact H1|].
  exact (time_and_frequency_of_report same_second_batch
           [same_second_record_1; same_second_record_2] H1).
Defined.

(** The two problems of the same second fall on one point of the line chart. *)
Example same_second_one_point :
  time_and_frequency [same_second_record_1; same_second_record_2] = Ok (["11:00"], [2%nat]).
Proof. vm_compute. reflexivity. Qed.

(** The clocks of a report come from the clocks of the batch. *)
Lemma report_clocks_from (args : list raw_event) (out : list cleaned_row) (lo : Z) :
  clean_data args = Ok out ->
  (forall P pc, In P args -> py_int (raw_clock P) = Some pc -> lo <= pc) ->
  exists clocks, Forall2 display_clock_of out clocks /\ Forall (fun t => lo <= t) clocks.
Proof.
  intros Hrun Hlo.
  assert (H : Forall (fun o => exists t, display_clock_of o t /\ lo <= t) out).
  { apply Forall_forall. intros o Ho.
    destruct (clean_data_sound _ _ _ Hrun Ho)
      as [P [R [n [pc [rc [HP [_ [_ [_ [_ [Hc [_ [Hpc [_ ->]]]]]]]]]]]]]].
    exists pc. split; [split; [exact Hpc|reflexivity]|]. exact (Hlo P pc HP Hc). }
  clear Hrun. induction H as [|o out [t [Ht Hb]] _ [clocks [IH1 IH2]]].
  - exists []. split; constructor.
  - exists (t :: clocks). split; constructor; assumption.
Qed.

Example first_midnight_clock :
  strftime_mdY_HMS first_midnight = "09/22/1677 00:00:00" /\
  in_timestamp_range first_midnight = true /\
  in_timestamp_range (first_midnight - 86400) = false.
Proof. vm_compute. repeat split. Qed.

Lemma normalize_from_first_midnight (t : Z) :
  first_midnight <= t -> timestamp_min <= normalize t.
Proof.
  unfold first_midnight, timestamp_min, normalize, second_of_day. intro H.
  Z.div_mod_to_equations. lia.
Qed.

(** X9: on a report that [clean_data] returned from a batch whose clocks
    are on or after the first midnight of the range of timestamps,
    [problems_per_day] does not raise; its dates are midnights within the
    range, in strictly ascending order, each with the number of records
    whose clock falls on that day, which is at least one; the counts add up
    to the number of records. *)
Theorem problems_per_day_of_report (args : list raw_event) (out : list cleaned_row) :
  clean_data args = Ok out ->
  (forall P pc, In P args -> py_int (raw_clock P) = Some pc -> first_midnight <= pc) ->
  exists clocks dates counts,
    Forall2 display_clock_of out clocks /\
    Forall (fun t => first_midnight <= t) clocks /\
    problems_per_day out = Ok (dates, counts) /\
    ascending Z.compare dates /\
    (forall d n, In (d, n) (combine dates counts) ->
       d mod 86400 = 0 /\ timestamp_min <= d /\ (0 < n)%nat /\
       n = List.length (filter (fun t => (d <=? t) && (t <? d + 86400)) clocks)) /\
    list_sum counts = List.length out.
Proof.
  intros Hrun Hlo. destruct (report_clocks_from _ _ _ Hrun Hlo) as [clocks [Hc Hb]].
  pose proof (value_counts_sort_index_spec Z.compare Z.compare_eq_iff
                Z_compare_antisym Z_compare_trans (map normalize clocks))
    as [Hasc [Hpos [Hocc Htot]]].
  exists clocks. eexists _, _. split; [exact Hc|]. split; [exact Hb|]. split.
  { unfold problems_per_day. rewrite (parse_display_clocks _ _ Hc). reflexivity. }
  split; [exact Hasc|]. split.
  - intros d n Hin. rewrite combine_fst_snd in Hin.
    assert (Hn : (0 < n)%nat).
    { rewrite Forall_forall in Hpos. apply Hpos.
      apply in_map_iff. exists (d, n). now split. }
    assert (Hv : In d (map normalize clocks)).
    { apply (occurrences_In Z.compare); [apply Z.compare_eq|].
      rewrite <- (Hocc d n Hin). exact Hn. }
    apply in_map_iff in Hv. destruct Hv as [t0 [Ht0 Hin0]].
    assert (Hd : d mod 86400 = 0) by (rewrite <- Ht0; apply normalize_midnight).
    split; [exact Hd|]. split.
    { rewrite <- Ht0. apply normalize_from_first_midnight.
      rewrite Forall_forall in Hb. now apply Hb. }
    split; [exact Hn|].
    rewrite (Hocc d n Hin), occurrences_map.
    f_equal. apply filter_ext. intro t.
    pose proof (normalize_day d t Hd) as Hday.
    destruct (d ?= normalize t) eqn:E.
    + apply Z.compare_eq in E. symmetry.
      apply andb_true_iff. rewrite Z.leb_le, Z.ltb_lt. apply Hday. now symmetry.
    + symmetry. apply not_true_is_false. rewrite andb_true_iff, Z.leb_le, Z.ltb_lt.
      intro H. apply Hday in H. rewrite H, Z.compare_refl in E. discriminate.
    + symmetry. apply not_true_is_false. rewrite andb_true_iff, Z.leb_le, Z.ltb_lt.
      intro H. apply Hday in H. rewrite H, Z.compare_refl in E. discriminate.
  - unfold total in Htot. rewrite Htot, length_map. symmetry.
    exact (Forall2_length Hc).
Qed.

Lemma problems_per_day_of_report_witness :
  clean_data same_second_batch = Ok [same_second_record_1; same_second_record_2] /\
  (forall P pc, In P same_second_batch -> py_int (raw_clock P) = Some pc ->
     first_midnight <= pc) /\
  exists clocks dates counts,
    Forall2 display_clock_of [same_second_record_1; same_second_record_2] clocks /\
    Forall (fun t => first_midnight <= t) clocks /\
    problems_per_day [same_second_record_1; same_second_record_2] = Ok (dates, counts) /\
    ascending Z.compare dates /\
    (forall d n, In (d, n) (combine dates counts) ->
       d mod 86400 = 0 /\ timestamp_min <= d /\ (0 < n)%nat /\
       n = List.length (filter (fun t => (d <=? t) && (t <? d + 86400)) clocks)) /\
    list_sum counts = List.length [same_second_record_1; same_second_record_2].
Proof.
  assert (H1 : clean_data same_second_batch = Ok [same_second_record_1; same_second_record_2])
    by (vm_compute; reflexivity).
  assert (H2 : forall P pc, In P same_second_batch -> py_int (raw_clock P) = Some pc ->
                 first_midnight <= pc).
  { intros P pc HP Hpc. unfold same_second_batch in HP. simpl in HP.
    repeat (destruct HP as [<-|HP];
      [vm_compute in Hpc; injection Hpc as <-; vm_compute; discriminate|]).
    contradiction. }
  split; [exact H1|]. split; [exact H2|].
  exact (problems_per_day_of_report same_second_batch
           [same_second_record_1; same_second_record_2] H1 H2).
Defined.

(** ** The colours of the pie chart *)

Lemma report_severity_cases (args : list raw_event) (out : list cleaned_row) (o : cleaned_row) :
  clean_data args = Ok out -> In o out ->
  severity o = PNone \/
  exists label, severity o = PStr label /\ In label (map snd severity_labels).
Proof.
  intros Hrun Ho.
  destruct (clean_data_sound _ _ _ Hrun Ho)
    as [P [R [n [pc [rc [_ [_ [_ [_ [_ [_ [_ [_ [_ ->]]]]]]]]]]]]]].
  simpl. unfold series_map. destruct (raw_severity P) as [| |s]; try (now left).
  destruct (dict_get severity_labels s) as [l|] eqn:Hl; [|now left].
  right. exists l. split; [reflexivity|]. exact (dict_get_In severity_labels s l Hl).
Qed.

Lemma Forall2_map_self {A B : Type} (R : A -> B -> Prop) (f : A -> B) (l : list A) :
  (forall a, In a l -> R a (f a)) -> Forall2 R l (map f l).
Proof.
  induction l as [|a l IH]; simpl; intro H; constructor.
  - apply H. now left.
  - apply IH. intros x Hx. apply H. now right.
Qed.

(** X10: on a report that [clean_data] returned, the column [colors] of the
    pie chart is missing exactly where the severity is missing and holds
    the colour of the label elsewhere; two records have the same colour
    only if they have the same severity, so the colours are counted as the
    labels are. *)
Theorem colors_follow_severity (args : list raw_event) (out : list cleaned_row) :
  clean_data args = Ok out ->
  Forall2 (fun (o : cleaned_row) (c : pyval) =>
             (severity o = PNone /\ c = PNone) \/
             exists label colour,
               severity o = PStr label /\ c = PStr colour /\ In (label, colour) severity_colors)
          out (colors out) /\
  (forall o1 o2, In o1 out -> In o2 out ->
     series_map severity_colors (severity o1) = series_map severity_colors (severity o2) ->
     severity o1 = severity o2).
Proof.
  intro Hrun. split.
  - unfold colors. apply Forall2_map_self. intros o Ho.
    destruct (report_severity_cases _ _ _ Hrun Ho) as [E|[label [E Hl]]]; rewrite E.
    + left. split; reflexivity.
    + right. exists label. simpl in Hl.
      repeat (destruct Hl as [<-|Hl]; [eexists; split; [reflexivity|];
        split; [reflexivity|]; simpl; tauto|]).
      contradiction.
  - intros o1 o2 H1 H2.
    destruct (report_severity_cases _ _ _ Hrun H1) as [E1|[l1 [E1 Hl1]]];
    destruct (report_severity_cases _ _ _ Hrun H2) as [E2|[l2 [E2 Hl2]]];
    rewrite E1, E2; simpl in *.
    + reflexivity.
    + repeat (destruct Hl2 as [<-|Hl2]; [discriminate|]). contradiction.
    + repeat (destruct Hl1 as [<-|Hl1]; [discriminate|]). contradiction.
    + repeat (destruct Hl1 as [<-|Hl1];
        [repeat (destruct Hl2 as [<-|Hl2]; [first [reflexivity|discriminate]|]);
         contradiction|]).
      contradiction.
Qed.

Lemma colors_follow_severity_witness :
  clean_data long_outage_batch = Ok [long_outage_record] /\
  Forall2 (fun (o : cleaned_row) (c : pyval) =>
             (severity o = PNone /\ c = PNone) \/
             exists label colour,
               severity o = PStr label /\ c = PStr colour /\ In (label, colour) severity_colors)
          [long_outage_record] (colors [long_outage_record]) /\
  (forall o1 o2, In o1 [long_outage_record] -> In o2 [long_outage_record] ->
     series_map severity_colors (severity o1) = series_map severity_colors (severity o2) ->
     severity o1 = severity o2).
Proof.
  assert (H1 : clean_data long_outage_batch = Ok [long_outage_record]) by reflexivity.
  split; [exact H1|].
  exact (colors_follow_severity long_outage_batch [long_outage_record] H1).
Defined.


(** ** The cause of a [KeyError] *)

Lemma correct_datatypes_Err (args : list adjusted_dataframe_row) (e : error) :
  correct_datatypes args = Err e ->
  e = OutOfBoundsDatetime \/ e = ValueError \/ e = OverflowError.
Proof.
  assert (Hdt : forall t e', to_datetime t = Err e' -> e' = OutOfBoundsDatetime).
  { intros t e'. unfold to_datetime. destruct (in_timestamp_range t); [discriminate|].
    intro E. now inversion E. }
  unfold correct_datatypes. intro H.
  destruct (assign _ set_clock args) as [f1|e1] eqn:H1; simpl in H.
  2:{ inversion H; subst. unfold assign in H1. apply mapM_Err in H1.
      destruct H1 as [a [_ Hf]]. left.
      destruct (to_datetime (clock a)) as [t|e'] eqn:Ht; simpl in Hf; [discriminate|].
      inversion Hf; subst. exact (Hdt _ _ Ht). }
  destruct (assign _ set_eventid f1) as [f2|e2] eqn:H2; simpl in H.
  2:{ inversion H; subst. unfold assign in H2. apply mapM_Err in H2.
      destruct H2 as [r1 [_ Hf]]. right.
      destruct (astype_int (eventid r1)) as [n|e'] eqn:Hn; simpl in Hf; [discriminate|].
      inversion Hf; subst. exact (proj2 (astype_int_Err _ _ Hn)). }
  unfold assign in H. apply mapM_Err in H. destruct H as [r3 [_ Hf]]. left.
  destruct (to_datetime (rts_clock r3)) as [t|e'] eqn:Ht; simpl in Hf; [discriminate|].
  inversion Hf; subst. exact (Hdt _ _ Ht).
Qed.

(** X11: on a batch that is not empty, whose key columns are of one kind
    and whose clocks are texts or 64-bit integers, a run raises [KeyError]
    for one reason only: every correlated pair has clocks that convert to
    integers, and none has a [hosts] text of four pieces, so that the frame
    has no column 3. *)
Theorem key_error_cause (args : list raw_event) :
  args <> [] -> uniform_keys args = true -> clock_cells args = true ->
  clean_data args = Err KeyError ->
  forall P R, In P args -> In R args -> raw_r_eventid P = raw_eventid R ->
    py_int (raw_clock P) <> None /\ py_int (raw_clock R) <> None /\
    (List.length (host_pieces (raw_hosts P)) <= 3)%nat.
Proof.
  intros _ _ _. unfold clean_data. cbv zeta.
  set (frame := adjusted_frame (map drop_columns args)). intro H.
  assert (Hco : forallb coercible frame = true).
  { destruct (forallb coercible frame) eqn:Hco; [reflexivity|]. exfalso.
    destruct (create_resolved_time_fails _ Hco) as [e [He Hrun]].
    rewrite Hrun in H. simpl in H. inversion H; subst.
    destruct He as [He|He]; discriminate He. }
  destruct (create_resolved_time_total _ Hco) as [resolved Hres].
  rewrite (proj2 (create_resolved_time_Ok _ _) Hres) in H. simpl in H.
  assert (Hno : ~ Exists (fun a : adjusted_row => has_host_column (hosts a)) frame).
  { intro Hex. apply (resolved_has_host_column _ _ Hres) in Hex.
    destruct (host_series_adjustment resolved) as [h|e'] eqn:Hh; simpl in H.
    - apply correct_datatypes_Err in H. destruct H as [H|[H|H]]; discriminate H.
    - rewrite (proj2 (host_series_adjustment_Ok resolved
                 (map drop_resolution (dropna (map host_row_of resolved))))
                 (conj Hex eq_refl)) in Hh.
      discriminate Hh. }
  intros P R HP HR Hk.
  assert (Ha : In (set_r_clock (drop_columns P) (clock (drop_columns R)) : adjusted_row) frame).
  { apply in_adjusted_frame. exists (drop_columns P), (drop_columns R).
    split; [now apply in_map|]. split; [now apply in_map|]. split; [exact Hk|reflexivity]. }
  rewrite forallb_forall in Hco. pose proof (Hco _ Ha) as Hc.
  unfold coercible in Hc. simpl in Hc.
  destruct (py_int (raw_clock P)); [|discriminate].
  destruct (py_int (raw_clock R)); [|discriminate].
  split; [discriminate|]. split; [discriminate|].
  apply Nat.nlt_ge. intro Hlt. apply Hno. apply Exists_exists.
  eexists. split; [exact Ha|]. exact Hlt.
Qed.

Lemma key_error_cause_witness :
  scenario_batch <> [] /\ uniform_keys scenario_batch = true /\
  clock_cells scenario_batch = true /\
  clean_data scenario_batch = Err KeyError /\
  forall P R, In P scenario_batch -> In R scenario_batch ->
    raw_r_eventid P = raw_eventid R ->
    py_int (raw_clock P) <> None /\ py_int (raw_clock R) <> None /\
    (List.length (host_pieces (raw_hosts P)) <= 3)%nat.
Proof.
  assert (N : scenario_batch <> []) by discriminate.
  assert (K : uniform_keys scenario_batch = true) by reflexivity.
  assert (D : clock_cells scenario_batch = true) by reflexivity.
  assert (H : clean_data scenario_batch = Err KeyError) by reflexivity.
  split; [exact N|]. split; [exact K|]. split; [exact D|]. split; [exact H|].
  exact (key_error_cause scenario_batch N K D H).
Defined.
